(** * Error dashboard: time-series bucketing and session classification

    A shallow embedding of [build_time_series] and of the data-shaping part
    of the [/api/errors] endpoint ([get_errors]) of
    [tools/error_dashboard.py], with the properties the specification
    states about them; then of the rest of that file that computes
    ([query_couchbase], [get_session] and [escapeHtml] of the page) and of
    the scripts [docs/rollback_test_template.py] and
    [docs/handoff_test_template.py], with further properties read off the
    code.

    Python dictionaries are finite maps ([gmap]), Python sets are finite
    sets ([gset]).  A JSON object read with [.get(key, default)] is a
    record of [option]s, [None] standing for an absent key; the data model
    gives every field a string or an integer, so a JSON [null] is not
    modelled.  The loops of the source are folds over the input lists; a
    [try: ... except: pass] block is a function that returns the state
    reached when the exception was raised, and an exception outside any
    [try] is the result [None].

    The library functions the program calls are modelled as follows:
    [datetime.fromisoformat] is a parameter of the aggregator, with the
    parser [IsoFormat.iso_parse] as the instance the examples run;
    [strftime], [isoformat] and the subtraction of a [timedelta] are
    computed on the calendar fields; float division and [round] are
    computed over exact rationals, which agree with binary floating point
    on the values of the examples. *)

From Stdlib Require Import ZArith QArith String Ascii List.
From stdpp Require Import gmap strings list fin_maps sorting.

Close Scope Q_scope.
Local Open Scope string_scope.
Local Open Scope Z_scope.

(** ** Strings *)

(** [s.replace(old, new)] for a pattern [old] of one character, the only
    form the program uses ([ts.replace('Z', '+00:00')]). *)
Fixpoint replace (old : ascii) (new : string) (s : string) : string :=
  match s with
  | EmptyString => EmptyString
  | String c s' =>
      if Ascii.eqb c old then new +:+ replace old new s'
      else String c (replace old new s')
  end.

(** Python truthiness of a string: non-empty. *)
Definition truthy (s : string) : bool :=
  match s with EmptyString => false | String _ _ => true end.

(** ** Dates and times *)

(** The fields of a [datetime.datetime]; [utcoffset] is the offset of an
    aware value in microseconds, [None] for a naive one. *)
Record datetime := mk_datetime {
  year : Z; month : Z; day : Z;
  hour : Z; minute : Z; second : Z; microsecond : Z;
  utcoffset : option Z
}.

Definition is_leap (y : Z) : bool :=
  (y mod 4 =? 0) && (negb (y mod 100 =? 0) || (y mod 400 =? 0)).

Definition days_in_month (y m : Z) : Z :=
  if m =? 2 then (if is_leap y then 29 else 28)
  else if (m =? 4) || (m =? 6) || (m =? 9) || (m =? 11) then 30
  else 31.

(** The range checks of the [datetime] constructor. *)
Definition valid_datetime (dt : datetime) : bool :=
  (1 <=? year dt) && (year dt <=? 9999) &&
  (1 <=? month dt) && (month dt <=? 12) &&
  (1 <=? day dt) && (day dt <=? days_in_month (year dt) (month dt)) &&
  (0 <=? hour dt) && (hour dt <=? 23) &&
  (0 <=? minute dt) && (minute dt <=? 59) &&
  (0 <=? second dt) && (second dt <=? 59) &&
  (0 <=? microsecond dt) && (microsecond dt <=? 999999).

Definition digit (d : Z) : ascii := ascii_of_nat (48 + Z.to_nat (d mod 10)).

(** A field printed on two digits with a leading zero ([%H], [%M], [%m],
    [%d], [%S]). *)
Definition pad2 (n : Z) : string :=
  String (digit (n / 10)) (String (digit n) EmptyString).

Definition pad4 (n : Z) : string :=
  String (digit (n / 1000)) (String (digit (n / 100)) (pad2 n)).

(** [dt.strftime(fmt)] for the conversions the program uses and their
    neighbours; any other character, and an unknown conversion, is copied
    as it stands. *)
Fixpoint strftime (dt : datetime) (fmt : string) : string :=
  match fmt with
  | String "%" (String "H" fmt') => pad2 (hour dt) +:+ strftime dt fmt'
  | String "%" (String "M" fmt') => pad2 (minute dt) +:+ strftime dt fmt'
  | String "%" (String "S" fmt') => pad2 (second dt) +:+ strftime dt fmt'
  | String "%" (String "m" fmt') => pad2 (month dt) +:+ strftime dt fmt'
  | String "%" (String "d" fmt') => pad2 (day dt) +:+ strftime dt fmt'
  | String "%" (String "%" fmt') => String "%" (strftime dt fmt')
  | String c fmt' => String c (strftime dt fmt')
  | EmptyString => EmptyString
  end.

Definition pad6 (n : Z) : string :=
  String (digit (n / 100000)) (String (digit (n / 10000)) (pad4 n)).

(** [dt.isoformat()] of a naive value, the only kind the program prints:
    [YYYY-MM-DDTHH:MM:SS], followed by [.ffffff] when the microseconds are
    not zero. *)
Definition isoformat (dt : datetime) : string :=
  pad4 (year dt) +:+ "-" +:+ pad2 (month dt) +:+ "-" +:+ pad2 (day dt) +:+ "T" +:+
  pad2 (hour dt) +:+ ":" +:+ pad2 (minute dt) +:+ ":" +:+ pad2 (second dt) +:+
  (if microsecond dt =? 0 then "" else "." +:+ pad6 (microsecond dt)).

(** [dt - timedelta(days=1)]; below [datetime.min] Python raises
    [OverflowError]. *)
Definition prev_day (dt : datetime) : option datetime :=
  let with_date y m d :=
    mk_datetime y m d (hour dt) (minute dt) (second dt) (microsecond dt) (utcoffset dt) in
  if 1 <? day dt then Some (with_date (year dt) (month dt) (day dt - 1))
  else if 1 <? month dt then
    Some (with_date (year dt) (month dt - 1) (days_in_month (year dt) (month dt - 1)))
  else if 1 <? year dt then Some (with_date (year dt - 1) 12 31)
  else None.

(** [dt - timedelta(days=n)]. *)
Fixpoint sub_days (dt : datetime) (n : nat) : option datetime :=
  match n with
  | O => Some dt
  | S n' => dt' ← prev_day dt; sub_days dt' n'
  end.

(** [dt - timedelta(hours=1)]. *)
Definition sub_hour (dt : datetime) : option datetime :=
  if 1 <=? hour dt then
    Some (mk_datetime (year dt) (month dt) (day dt) (hour dt - 1)
                      (minute dt) (second dt) (microsecond dt) (utcoffset dt))
  else
    dt' ← prev_day dt;
    Some (mk_datetime (year dt') (month dt') (day dt') 23
                      (minute dt) (second dt) (microsecond dt) (utcoffset dt)).

(** ** A parser for ISO-8601 timestamps

    [build_time_series] is stated over any parser (see the section below).
    [iso_parse] is the instance the examples run: the grammar documented
    for [datetime.fromisoformat],
    [YYYY-MM-DD[*HH[:MM[:SS[.fff[fff]]]][+HH:MM[:SS[.ffffff]]]]], with the
    range checks of the [datetime] constructor; [None] is [ValueError]. *)
Module IsoFormat.

Definition digit_of (c : ascii) : option Z :=
  let n := Z.of_nat (nat_of_ascii c) in
  if (48 <=? n) && (n <=? 57) then Some (n - 48) else None.

(** Exactly [n] decimal digits, most significant first. *)
Fixpoint digits (n : nat) (acc : Z) (s : string) : option (Z * string) :=
  match n with
  | O => Some (acc, s)
  | S n' =>
      match s with
      | String c s' => d ← digit_of c; digits n' (10 * acc + d) s'
      | EmptyString => None
      end
  end.

Definition expect (c : ascii) (s : string) : option string :=
  match s with
  | String c' s' => if Ascii.eqb c c' then Some s' else None
  | EmptyString => None
  end.

(** [.fff] or [.ffffff]: three digits count milliseconds. *)
Definition parse_fraction (s : string) : option Z :=
  match String.length s with
  | 3%nat => '(f, _) ← digits 3 0 s; Some (f * 1000)
  | 6%nat => '(f, _) ← digits 6 0 s; Some f
  | _ => None
  end.

(** [HH[:MM[:SS[.fff[fff]]]]], the whole string. *)
Definition parse_hh_mm_ss_ff (s : string) : option (Z * Z * Z * Z) :=
  '(h, s) ← digits 2 0 s;
  match s with
  | EmptyString => Some (h, 0, 0, 0)
  | String ":" s =>
      '(m, s) ← digits 2 0 s;
      match s with
      | EmptyString => Some (h, m, 0, 0)
      | String ":" s =>
          '(sec, s) ← digits 2 0 s;
          match s with
          | EmptyString => Some (h, m, sec, 0)
          | String "." s => f ← parse_fraction s; Some (h, m, sec, f)
          | _ => None
          end
      | _ => None
      end
  | _ => None
  end.

(** Splits a time string at its first sign character: the time proper,
    and the sign and text of the offset when there is one. *)
Fixpoint split_offset (s : string) : string * option (Z * string) :=
  match s with
  | EmptyString => (EmptyString, None)
  | String c s' =>
      if Ascii.eqb c "+" then (EmptyString, Some (1, s'))
      else if Ascii.eqb c "-" then (EmptyString, Some (-1, s'))
      else let '(t, o) := split_offset s' in (String c t, o)
  end.

(** [HH:MM[:SS[.ffffff]]] after the sign; an offset of a day or more is
    refused by [timezone]. *)
Definition parse_offset (sign : Z) (s : string) : option Z :=
  match String.length s with
  | 5%nat | 8%nat | 15%nat =>
      '(h, m, sec, us) ← parse_hh_mm_ss_ff s;
      let off := ((h * 3600 + m * 60 + sec) * 1000000 + us) in
      if off <? 86400 * 1000000 then Some (sign * off) else None
  | _ => None
  end.

Definition parse_time (s : string) : option (Z * Z * Z * Z * option Z) :=
  let '(t, o) := split_offset s in
  '(h, m, sec, us) ← parse_hh_mm_ss_ff t;
  match o with
  | None => Some (h, m, sec, us, None)
  | Some (sign, tz) => off ← parse_offset sign tz; Some (h, m, sec, us, Some off)
  end.

Definition iso_parse (s : string) : option datetime :=
  '(y, s) ← digits 4 0 s;
  s ← expect "-" s;
  '(mo, s) ← digits 2 0 s;
  s ← expect "-" s;
  '(d, s) ← digits 2 0 s;
  '(h, mi, sec, us, off) ←
     match s with
     | EmptyString => Some (0, 0, 0, 0, None)
     | String _ t => parse_time t
     end;
  let dt := mk_datetime y mo d h mi sec us off in
  if valid_datetime dt then Some dt else None.

End IsoFormat.

(** ** Data model *)

(** An element of the [errors] list: a JSON object read with
    [e.get(key, default)], so every key may be absent, except that
    [build_time_series] reads [e['type']] directly. *)
Record ErrorEvent := mk_event {
  e_type : option string;
  e_timestamp : option string;
  e_sessionId : option string;
  e_pairIndex : option Z;
  e_description : option string
}.

Record ExtensionInfo := mk_extension {
  currentExtension : option Z
}.

(** A row of the session-stats query. *)
Record SessionStat := mk_session {
  s_id : option string;
  s_updatedAt : option string;
  s_tokensIn : option Z;
  s_tokensOut : option Z;
  s_extensionInfo : option ExtensionInfo;
  s_parentSessionId : option string;
  s_handoffToSessionId : option string
}.

(** The values a bucket dictionary holds: integer counters and the set of
    session ids. *)
Inductive pyval :=
  | VInt (n : Z)
  | VSet (s : gset string).

(** A bucket, [time_buckets[label]], and the whole [defaultdict]. *)
Abbreviation bucket := (gmap string pyval).
Abbreviation buckets := (gmap string (gmap string pyval)).

(** The [lambda] of the [defaultdict]: the bucket a first access creates. *)
Definition new_bucket : bucket :=
  <["bugs" := VInt 0]> (<["failures" := VInt 0]> (<["errors" := VInt 0]>
  (<["sessions" := VSet ∅]> (<["tokensIn" := VInt 0]> (<["tokensOut" := VInt 0]>
  (<["totalSizeBytes" := VInt 0]> ∅)))))).

(** [time_buckets[key]] on a [defaultdict]: the bucket, and the dictionary
    with the bucket created when it was missing. *)
Definition getitem (tb : buckets) (key : string) : bucket * buckets :=
  match tb !! key with
  | Some data => (data, tb)
  | None => (new_bucket, <[key := new_bucket]> tb)
  end.

(** [data[k] += v]: [KeyError] when [k] is missing, [TypeError] on a set. *)
Definition iadd (data : bucket) (k : string) (v : Z) : option bucket :=
  match data !! k with
  | Some (VInt n) => Some (<[k := VInt (n + v)]> data)
  | _ => None
  end.

(** [data['sessions'].add(sid)]. *)
Definition add_session (data : bucket) (sid : string) : option bucket :=
  match data !! "sessions" with
  | Some (VSet s) => Some (<["sessions" := VSet ({[sid]} ∪ s)]> data)
  | _ => None
  end.

(** One emitted bucket summary.  The two averages are Python floats; the
    model computes them over exact rationals. *)
Record Summary := mk_summary {
  period : string;
  bugs : Z;
  failures : Z;
  errors : Z;
  avgPerSession : Q;
  tokensIn : Z;
  tokensOut : Z;
  avgSessionSizeKB : Q
}.

(** ** Arithmetic of the averages *)

(** [a / b] on integers (true division): [None] is [ZeroDivisionError]. *)
Definition true_div (a b : Z) : option Q :=
  if b =? 0 then None else Some (inject_Z a / inject_Z b)%Q.

(** The nearest integer, ties to the even one. *)
Definition round_half_even (x : Q) : Z :=
  let n := Qnum x in
  let d := Z.pos (Qden x) in
  let fl := n / d in
  let r := 2 * (n mod d) in
  if r <? d then fl
  else if d <? r then fl + 1
  else if Z.even fl then fl else fl + 1.

(** [round(x, ndigits)]. *)
Definition round (x : Q) (ndigits : nat) : Q :=
  let scale := 10 ^ Z.of_nat ndigits in
  Qred (inject_Z (round_half_even (x * inject_Z scale)) / inject_Z scale)%Q.

(** ** [build_time_series] *)

(** Lines 39-46: the label format of a range selector. *)
Definition bucket_format (time_range : string) : string :=
  if String.eqb time_range "hour" then "%H:%M"
  else if String.eqb time_range "day" then "%H:00"
  else if String.eqb time_range "week" then "%m/%d"
  else "%m/%d".

Section Aggregator.

(** [datetime.fromisoformat], from the Python library: [None] stands for
    the [ValueError] it raises. *)
Variable fromisoformat : string → option datetime.

(** Lines 55-59 and 69-73: the parsed timestamp, unless it is missing,
    empty or refused by the parser. *)
Definition parse_timestamp (ts : option string) : option datetime :=
  let ts := default "" ts in
  if truthy ts then fromisoformat (replace "Z" "+00:00" ts) else None.

(** Lines 60 and 74: the label of a timestamp, when it has one. *)
Definition bucket_key_of (fmt : string) (ts : option string) : option string :=
  dt ← parse_timestamp ts;
  Some (strftime dt fmt).

(** Lines 54-64, the body of the first loop.  The right-hand side of the
    assignment is evaluated first, so the bucket exists before [e['type']]
    is read; whatever was written before an exception stays written. *)
Definition count_error (fmt : string) (tb : buckets) (e : ErrorEvent) : buckets :=
  match bucket_key_of fmt (e_timestamp e) with
  | None => tb
  | Some bucket_key =>
      let '(data, tb) := getitem tb bucket_key in
      match e_type e with
      | None => tb
      | Some ty =>
          let k := ty +:+ "s" in
          match default (VInt 0) (data !! k) with
          | VSet _ => tb
          | VInt n =>
              let data := <[k := VInt (n + 1)]> data in
              let tb := <[bucket_key := data]> tb in
              match add_session data (default "" (e_sessionId e)) with
              | None => tb
              | Some data => <[bucket_key := data]> tb
              end
          end
      end
  end.

(** Lines 68-82, the body of the second loop. *)
Definition add_session_stat (fmt : string) (tb : buckets) (s : SessionStat) : buckets :=
  match bucket_key_of fmt (s_updatedAt s) with
  | None => tb
  | Some bucket_key =>
      let tin := default 0 (s_tokensIn s) in
      let tout := default 0 (s_tokensOut s) in
      let '(data, tb) := getitem tb bucket_key in
      match iadd data "tokensIn" tin with
      | None => tb
      | Some data =>
          let tb := <[bucket_key := data]> tb in
          match iadd data "tokensOut" tout with
          | None => tb
          | Some data =>
              let tb := <[bucket_key := data]> tb in
              let estimated_size := (tin + tout) * 4 in
              match iadd data "totalSizeBytes" estimated_size with
              | None => tb
              | Some data =>
                  let tb := <[bucket_key := data]> tb in
                  match add_session data (default "" (s_id s)) with
                  | None => tb
                  | Some data => <[bucket_key := data]> tb
                  end
              end
          end
      end
  end.

(** Lines 48-82: the dictionary [time_buckets] when both loops are done.
    [if session_stats:] skips [None] and the empty list. *)
Definition time_buckets (errors : list ErrorEvent) (time_range : string)
    (session_stats : option (list SessionStat)) : buckets :=
  let fmt := bucket_format time_range in
  let tb := foldl (count_error fmt) ∅ errors in
  match session_stats with
  | Some (s :: rest) => foldl (add_session_stat fmt) tb (s :: rest)
  | _ => tb
  end.

End Aggregator.

(** [data.get(k, 0)] where an integer is expected: a set there cannot be
    added, divided or serialised. *)
Definition get_int (data : bucket) (k : string) : option Z :=
  match default (VInt 0) (data !! k) with
  | VInt n => Some n
  | VSet _ => None
  end.

(** [len(data['sessions']) or 1]. *)
Definition session_count_of (data : bucket) : option Z :=
  match data !! "sessions" with
  | Some (VSet s) =>
      let n := Z.of_nat (size s) in
      Some (if n =? 0 then 1 else n)
  | _ => None
  end.

(** Lines 87-98, the body of the last loop, which no [try] guards: [None]
    is an exception that leaves [build_time_series]. *)
Definition summarise (item : string * bucket) : option Summary :=
  let '(period, data) := item in
  session_count ← session_count_of data;
  b ← get_int data "bugs";
  f ← get_int data "failures";
  e ← get_int data "errors";
  let total_errors := b + f + e in
  avg ← true_div total_errors session_count;
  tin ← get_int data "tokensIn";
  tout ← get_int data "tokensOut";
  bytes ← get_int data "totalSizeBytes";
  per_session ← true_div bytes session_count;
  Some (mk_summary period b f e (round avg 2) tin tout
                   (round (per_session / inject_Z 1024)%Q 1)).

(** The order of [sorted] on [(label, bucket)] pairs with distinct labels:
    by label, code point by code point. *)
Definition item_le (x y : string * bucket) : Prop := String.le x.1 y.1.

#[global] Instance item_le_dec : RelDecision item_le.
Proof. intros x y. unfold item_le. apply _. Defined.

(** [sorted(time_buckets.items())]. *)
Definition sorted_items (tb : buckets) : list (string * bucket) :=
  merge_sort item_le (map_to_list tb).

(** Lines 34-100. *)
Definition build_time_series (fromisoformat : string → option datetime)
    (errors : list ErrorEvent) (time_range : string) (total_sessions : Z)
    (session_stats : option (list SessionStat)) : option (list Summary) :=
  mapM summarise
       (sorted_items (time_buckets fromisoformat errors time_range session_stats)).

(** ** The errors endpoint, [get_errors] *)

(** Rows of the four error queries, with the columns the endpoint reads. *)
Record BugRow := mk_bug {
  b_sessionId : option string;
  b_bugType : option string;
  b_description : option string;
  b_timestamp : option string;
  b_pairIndex : option Z
}.

Record FailureRow := mk_failure {
  f_sessionId : option string;
  f_operationType : option string;
  f_filePath : option string;
  f_timestamp : option string;
  f_pairIndex : option Z
}.

Record PairErrorRow := mk_pair_error {
  p_sessionId : option string;
  p_pairIndex : option Z;
  p_errorMessage : option string;
  p_timestamp : option string
}.

Record CliRow := mk_cli {
  c_sessionId : option string;
  c_command : option string;
  c_timestamp : option string;
  c_pairIndex : option Z;
  c_wasAutoExecuted : option bool
}.

(** [query_couchbase] on the five statements of the endpoint.  Each
    statement is a fixed text around [start_str], so its rows are a function
    of [start_str]; a failed query is the empty list. *)
Record Store := mk_store {
  bugs_query : string → list BugRow;
  failures_query : string → list FailureRow;
  pair_errors_query : string → list PairErrorRow;
  cli_failures_query : string → list CliRow;
  session_stats_query : string → list SessionStat
}.

(** Lines 1157-1165. *)
Definition bug_event (b : BugRow) : ErrorEvent :=
  mk_event (Some "bug")
           (Some (default "" (b_timestamp b)))
           (Some (default "" (b_sessionId b)))
           (Some (default 0 (b_pairIndex b)))
           (Some ("[" +:+ default "unknown" (b_bugType b) +:+ "] "
                  +:+ default "" (b_description b))).

(** Lines 1169-1175. *)
Definition failure_event (f : FailureRow) : ErrorEvent :=
  mk_event (Some "failure")
           (Some (default "" (f_timestamp f)))
           (Some (default "" (f_sessionId f)))
           (Some (default 0 (f_pairIndex f)))
           (Some ("[" +:+ default "unknown" (f_operationType f) +:+ "] "
                  +:+ default "" (f_filePath f))).

(** Lines 1179-1184. *)
Definition pair_error_event (p : PairErrorRow) : ErrorEvent :=
  mk_event (Some "error")
           (Some (default "" (p_timestamp p)))
           (Some (default "" (p_sessionId p)))
           (Some (default 0 (p_pairIndex p)))
           (Some (default "Unknown error" (p_errorMessage p))).

(** Lines 1188-1199; the command is cut to its first 50 characters. *)
Definition cli_event (c : CliRow) : ErrorEvent :=
  let cmd := String.substring 0 50 (default "" (c_command c)) in
  let auto_label := if default false (c_wasAutoExecuted c) then "🤖" else "👤" in
  mk_event (Some "cli")
           (Some (default "" (c_timestamp c)))
           (Some (default "" (c_sessionId c)))
           (Some (default 0 (c_pairIndex c)))
           (Some ("[CLI " +:+ auto_label +:+ "] " +:+ cmd)).

(** The sort key [x['timestamp']]. *)
Definition timestamp_key (e : ErrorEvent) : string := default "" (e_timestamp e).

Fixpoint insert_desc (x : ErrorEvent) (l : list ErrorEvent) : list ErrorEvent :=
  match l with
  | [] => [x]
  | y :: l' =>
      if String.ltb (timestamp_key x) (timestamp_key y) then y :: insert_desc x l'
      else x :: y :: l'
  end.

(** Line 1201, [all_errors.sort(key=..., reverse=True)]: descending and
    stable. *)
Definition sort_desc (l : list ErrorEvent) : list ErrorEvent :=
  foldr insert_desc [] l.

(** Lines 1092-1102: the start of the queried period. *)
Definition range_start (now : datetime) (time_range : string) : option datetime :=
  if String.eqb time_range "hour" then sub_hour now
  else if String.eqb time_range "day" then sub_days now 1
  else if String.eqb time_range "week" then sub_days now 7
  else if String.eqb time_range "month" then sub_days now 30
  else Some (mk_datetime 2020 1 1 0 0 0 0 None).

(** The counters [session_types]. *)
Record SessionTypes := mk_session_types {
  single : Z;
  extended : Z;
  handoff : Z
}.

(** [s.get('extensionInfo') and s['extensionInfo'].get('currentExtension', 1) > 1] *)
Definition is_extended (s : SessionStat) : bool :=
  match s_extensionInfo s with
  | Some info => 1 <? default 1 (currentExtension info)
  | None => false
  end.

(** [s.get('parentSessionId') or s.get('handoffToSessionId')] *)
Definition is_handoff (s : SessionStat) : bool :=
  truthy (default "" (s_parentSessionId s)) || truthy (default "" (s_handoffToSessionId s)).

(** Lines 1213-1223, the body of the classification loop. *)
Definition classify_session (acc : SessionTypes * gmap string string) (s : SessionStat)
    : SessionTypes * gmap string string :=
  let '(session_types, session_type_map) := acc in
  let sid := default "" (s_id s) in
  if is_extended s then
    (mk_session_types (single session_types) (extended session_types + 1)
                      (handoff session_types),
     <[sid := "extended"]> session_type_map)
  else if is_handoff s then
    (mk_session_types (single session_types) (extended session_types)
                      (handoff session_types + 1),
     <[sid := "handoff"]> session_type_map)
  else
    (mk_session_types (single session_types + 1) (extended session_types)
                      (handoff session_types),
     <[sid := "single"]> session_type_map).

(** Lines 1210-1223. *)
Definition classify_sessions (session_stats : list SessionStat)
    : SessionTypes * gmap string string :=
  foldl classify_session (mk_session_types 0 0 0, ∅) session_stats.

Record Stats := mk_stats {
  st_bugs : Z;
  st_failures : Z;
  st_errors : Z;
  st_cli : Z;
  st_uniqueSessions : Z
}.

(** The JSON object the endpoint answers with. *)
Record Response := mk_response {
  r_stats : Stats;
  r_errors : list ErrorEvent;
  r_timeSeries : list Summary;
  r_sessionTypes : SessionTypes;
  r_sessionTypeMap : gmap string string
}.

(** Lines 1152-1199: the flattened events, before sorting. *)
Definition flatten_errors (bugs : list BugRow) (failures : list FailureRow)
    (pair_errors : list PairErrorRow) (cli_failures : list CliRow) : list ErrorEvent :=
  (bug_event <$> bugs) ++ (failure_event <$> failures) ++
  (pair_error_event <$> pair_errors) ++ (cli_event <$> cli_failures).

(** Lines 1089-1231.  [range_arg] is the [range] query parameter, [now] is
    [datetime.utcnow()]; [None] is an exception that leaves the handler. *)
Definition get_errors (fromisoformat : string → option datetime) (db : Store)
    (now : datetime) (range_arg : option string) : option Response :=
  let time_range := default "day" range_arg in
  start ← range_start now time_range;
  let start_str := isoformat start +:+ "Z" in
  let bugs := bugs_query db start_str in
  let failures := failures_query db start_str in
  let pair_errors := pair_errors_query db start_str in
  let cli_failures := cli_failures_query db start_str in
  let session_stats := session_stats_query db start_str in
  let all_errors := flatten_errors bugs failures pair_errors cli_failures in
  let session_ids : gset string :=
    list_to_set ((λ e, default "" (e_sessionId e)) <$> all_errors) in
  let all_errors := sort_desc all_errors in
  time_series ← build_time_series fromisoformat all_errors time_range
                   (Z.of_nat (size session_ids)) (Some session_stats);
  let '(session_types, session_type_map) := classify_sessions session_stats in
  Some (mk_response
          (mk_stats (Z.of_nat (length bugs)) (Z.of_nat (length failures))
                    (Z.of_nat (length pair_errors)) (Z.of_nat (length cli_failures))
                    (Z.of_nat (size session_ids)))
          all_errors time_series session_types session_type_map).

(** * The vocabulary of the properties *)

(** ** The specification's reading of the session classifier *)

Inductive category := Single | Extended | Handoff.

#[global] Instance category_eq_dec : EqDecision category.
Proof. solve_decision. Defined.

Definition category_name (c : category) : string :=
  match c with
  | Single => "single"
  | Extended => "extended"
  | Handoff => "handoff"
  end.

(** "Has a parent session reference or a forward handoff reference": the
    reference is there and is not the empty string. *)
Definition has_reference (r : option string) : bool :=
  match r with
  | Some (String _ _) => true
  | _ => false
  end.

(** "Carries extension metadata indicating more than one part". *)
Definition more_than_one_part (s : SessionStat) : bool :=
  match s_extensionInfo s with
  | Some (mk_extension (Some n)) => 1 <? n
  | _ => false
  end.

(** Section 4.2: extended if [currentExtension > 1], else handoff if there
    is a parent or a forward reference, else single. *)
Definition category_of (s : SessionStat) : category :=
  if more_than_one_part s then Extended
  else if has_reference (s_parentSessionId s) || has_reference (s_handoffToSessionId s)
       then Handoff
  else Single.

(** The counter of one category. *)
Definition count_of (c : category) (t : SessionTypes) : Z :=
  match c with
  | Single => single t
  | Extended => extended t
  | Handoff => handoff t
  end.

(** One more session of category [c]. *)
Definition bump (c : category) (t : SessionTypes) : SessionTypes :=
  match c with
  | Single => mk_session_types (single t + 1) (extended t) (handoff t)
  | Extended => mk_session_types (single t) (extended t + 1) (handoff t)
  | Handoff => mk_session_types (single t) (extended t) (handoff t + 1)
  end.

(** ** Well-formed buckets

    Every bucket the loops build keeps a set under ["sessions"] and
    integers everywhere else, with the three token counters present: this
    is what the unguarded last loop relies on. *)

Definition bucket_ok (d : bucket) : Prop :=
  (∃ s, d !! "sessions" = Some (VSet s)) ∧
  (∀ k v, d !! k = Some v → k ≠ "sessions" → ∃ n, v = VInt n) ∧
  is_Some (d !! "tokensIn") ∧ is_Some (d !! "tokensOut") ∧
  is_Some (d !! "totalSizeBytes").

Definition buckets_ok (tb : buckets) : Prop :=
  map_Forall (λ _ d, bucket_ok d) tb.

(** What a bucket holds under an integer key, and its set of sessions. *)
Definition int_at (d : bucket) (k : string) : Z :=
  match d !! k with
  | Some (VInt n) => n
  | _ => 0
  end.

Definition sessions_at (d : bucket) : gset string :=
  match d !! "sessions" with
  | Some (VSet s) => s
  | _ => ∅
  end.

(** The counter [k] of the bucket labelled [L]; zero when there is no such
    bucket. *)
Definition count_at (tb : buckets) (L k : string) : Z :=
  from_option (λ d, int_at d k) 0 (tb !! L).

(** The keys the second loop writes, and the key of the session set. *)
Definition reserved : list string :=
  ["sessions"; "tokensIn"; "tokensOut"; "totalSizeBytes"].

(** ** Events and their buckets *)

(** The event types of the data model. *)
Definition event_types : list string := ["bug"; "failure"; "error"; "cli"].

(** The timestamp of the event is one [build_time_series] can bucket. *)
Definition parsable (fromisoformat : string → option datetime) (e : ErrorEvent) : Prop :=
  is_Some (parse_timestamp fromisoformat (e_timestamp e)).

#[global] Instance parsable_dec p e : Decision (parsable p e).
Proof. unfold parsable. apply _. Defined.

(** The label of a timestamp by the words of section 4.1: [HH:MM] for
    the range [hour], [HH:00] for [day], [MM/DD] for every other range. *)
Definition label_of (time_range : string) (dt : datetime) : string :=
  if decide (time_range = "hour") then pad2 (hour dt) +:+ ":" +:+ pad2 (minute dt)
  else if decide (time_range = "day") then pad2 (hour dt) +:+ ":00"
  else pad2 (month dt) +:+ "/" +:+ pad2 (day dt).

(** The key an event is counted under, [e['type'] + 's']. *)
Definition counter_key (e : ErrorEvent) : option string :=
  (λ ty, ty +:+ "s") <$> e_type e.

(** The event is labelled [L] and counted under [k]. *)
Definition lands_in (fromisoformat : string → option datetime) (fmt : string)
    (L k : string) (e : ErrorEvent) : Prop :=
  bucket_key_of fromisoformat fmt (e_timestamp e) = Some L ∧ counter_key e = Some k.

#[global] Instance lands_in_dec p fmt L k e : Decision (lands_in p fmt L k e).
Proof. unfold lands_in. apply _. Defined.

(** The event is labelled [L] and has type [ty]. *)
Definition counted_as (fromisoformat : string → option datetime) (fmt : string)
    (L ty : string) (e : ErrorEvent) : Prop :=
  bucket_key_of fromisoformat fmt (e_timestamp e) = Some L ∧ e_type e = Some ty.

#[global] Instance counted_as_dec p fmt L ty e : Decision (counted_as p fmt L ty e).
Proof. unfold counted_as. apply _. Defined.

(** The number of events of the list labelled [L] with type [ty]. *)
Definition events_in (fromisoformat : string → option datetime) (fmt : string)
    (L ty : string) (errors : list ErrorEvent) : Z :=
  Z.of_nat (length (filter (counted_as fromisoformat fmt L ty) errors)).

(** ** The specification's reading of a bucket summary *)

(** The number of distinct session ids a bucket has seen. *)
Definition distinct_sessions (d : bucket) : Z := Z.of_nat (size (sessions_at d)).

(** [round(totalErrorsInBucket / max(1, distinctSessionsInBucket), 2)] *)
Definition avg_per_session (total distinct : Z) : Q :=
  round (inject_Z total / inject_Z (Z.max 1 distinct))%Q 2.

(** [round(totalEstimatedBytes / distinctSessions / 1024, 1)], an empty
    set of sessions counting as one session. *)
Definition avg_session_size_kb (bytes distinct : Z) : Q :=
  round (inject_Z bytes / inject_Z (Z.max 1 distinct) / inject_Z 1024)%Q 1.

(** The summary of a bucket, by the formulas of section 4.1. *)
Definition summary_of (item : string * bucket) : Summary :=
  let d := item.2 in
  mk_summary item.1 (int_at d "bugs") (int_at d "failures") (int_at d "errors")
    (avg_per_session (int_at d "bugs" + int_at d "failures" + int_at d "errors")
                     (distinct_sessions d))
    (int_at d "tokensIn") (int_at d "tokensOut")
    (avg_session_size_kb (int_at d "totalSizeBytes") (distinct_sessions d)).

(** The count a summary carries for an event type: the fields [bugs],
    [failures] and [errors], and nothing for any other type. *)
Definition emitted_count (r : Summary) (ty : string) : option Z :=
  if decide (ty = "bug") then Some (bugs r)
  else if decide (ty = "failure") then Some (failures r)
  else if decide (ty = "error") then Some (errors r)
  else None.

(** "Every emitted summary contains the raw count of each of the four
    event types counted into its bucket." *)
Definition emits_every_type_count (fromisoformat : string → option datetime)
    (events : list ErrorEvent) (time_range : string) (result : list Summary) : Prop :=
  ∀ r ty, r ∈ result → ty ∈ event_types →
    emitted_count r ty
    = Some (events_in fromisoformat (bucket_format time_range) (period r) ty events).

(** ** The order of labels and the order of time *)

(** [a < b] on Python strings. *)
Definition label_lt (a b : string) : Prop := String.ltb a b = true.

Definition days_before_year (y : Z) : Z :=
  let y := y - 1 in y * 365 + y / 4 - y / 100 + y / 400.

(** The days of the year before the first day of month [m]. *)
Definition days_before_month (y m : Z) : Z :=
  nth (Z.to_nat m) [0; 0; 31; 59; 90; 120; 151; 181; 212; 243; 273; 304; 334] 0
  + (if (2 <? m) && is_leap y then 1 else 0).

(** [dt.toordinal()]: the day number in the proleptic Gregorian calendar. *)
Definition toordinal (dt : datetime) : Z :=
  days_before_year (year dt) + days_before_month (year dt) (month dt) + day dt.

(** The point in time of a timestamp, in microseconds: its calendar fields
    less its offset from UTC (a naive value is read as UTC). *)
Definition instant (dt : datetime) : Z :=
  ((toordinal dt * 86400 + hour dt * 3600 + minute dt * 60 + second dt) * 1000000
   + microsecond dt) - default 0 (utcoffset dt).

(** [a < b] on timestamps. *)
Definition earlier (a b : datetime) : Prop := instant a < instant b.

(** "The order of the emitted buckets is chronological": when the bucket of
    one event comes before the bucket of another, the first event is the
    earlier one. *)
Definition chronological (fromisoformat : string → option datetime)
    (events : list ErrorEvent) (time_range : string) (result : list Summary) : Prop :=
  ∀ e1 e2 dt1 dt2 (i j : nat),
    e1 ∈ events → e2 ∈ events →
    parse_timestamp fromisoformat (e_timestamp e1) = Some dt1 →
    parse_timestamp fromisoformat (e_timestamp e2) = Some dt2 →
    (period <$> result) !! i = Some (label_of time_range dt1) →
    (period <$> result) !! j = Some (label_of time_range dt2) →
    (i < j)%nat →
    earlier dt1 dt2.

(** Two timestamps a label can order: the same offset from UTC and the same
    calendar day under the labels of [hour] and [day], the same calendar
    year under the label [MM/DD]. *)
Definition same_window (time_range : string) (a b : datetime) : Prop :=
  utcoffset a = utcoffset b ∧ year a = year b ∧
  (time_range = "hour" ∨ time_range = "day" → month a = month b ∧ day a = day b).

(** ** Inputs of the examples *)

Definition bug_at_1015 : ErrorEvent :=
  mk_event (Some "bug") (Some "2024-01-01T10:15:00Z") (Some "A") None None.

Definition bug_at_1045 : ErrorEvent :=
  mk_event (Some "bug") (Some "2024-01-01T10:45:00Z") (Some "B") None None.

Definition cli_at_1045 : ErrorEvent :=
  mk_event (Some "cli") (Some "2024-01-01T10:45:00Z") (Some "B") None None.

Definition bug_new_years_eve : ErrorEvent :=
  mk_event (Some "bug") (Some "2023-12-31T23:00:00Z") (Some "A") None None.

Definition bug_new_years_day : ErrorEvent :=
  mk_event (Some "bug") (Some "2024-01-01T01:00:00Z") (Some "A") None None.

Definition bug_not_a_date : ErrorEvent :=
  mk_event (Some "bug") (Some "not-a-date") (Some "A") None None.

(** An object without the key [type]. *)
Definition untyped_at_1050 : ErrorEvent :=
  mk_event None (Some "2024-01-01T10:50:30Z") (Some "C") None None.

(** Two bugs, a cli failure, a bug with a malformed timestamp and an event
    without type. *)
Definition sample_events : list ErrorEvent :=
  [bug_at_1015; cli_at_1045; bug_not_a_date; bug_at_1045; untyped_at_1050].

(** The example of section 8: extension metadata and a parent at once. *)
Definition extended_with_parent : SessionStat :=
  mk_session None None None None (Some (mk_extension (Some 2))) (Some "X") None.

(** A store with one bug whose timestamp is malformed and one that is
    well-formed, an operation failure without timestamp, and one session. *)
Definition example_store : Store :=
  mk_store
    (λ _, [mk_bug (Some "A") (Some "logic") (Some "off by one") (Some "not-a-date") (Some 3);
           mk_bug (Some "A") None None (Some "2024-01-01T10:15:00Z") None])
    (λ _, [mk_failure (Some "B") (Some "write") (Some "a.py") None (Some 1)])
    (λ _, [])
    (λ _, [])
    (λ _, [mk_session (Some "A") (Some "2024-01-01T11:00:00Z") (Some 100) (Some 28)
                      None None None]).

Definition example_now : datetime := mk_datetime 2024 1 2 9 30 0 0 None.

(** ** What a bucket accumulates *)

(** The session ids of the bucket labelled [L]; none when there is no such
    bucket. *)
Definition sessions_of (tb : buckets) (L : string) : gset string :=
  from_option sessions_at ∅ (tb !! L).

(** The event is labelled [L] and reaches line 62, which records its
    session: it has a type, and the counter of that type is not the session
    set itself. *)
Definition registers (fromisoformat : string → option datetime) (fmt : string)
    (L : string) (e : ErrorEvent) : Prop :=
  bucket_key_of fromisoformat fmt (e_timestamp e) = Some L ∧
  match e_type e with
  | Some ty => ty +:+ "s" ≠ "sessions"
  | None => False
  end.

#[global] Instance registers_dec p fmt L e : Decision (registers p fmt L e).
Proof. unfold registers. destruct (e_type e); apply _. Defined.

(** The session row is labelled [L]. *)
Definition stat_in (fromisoformat : string → option datetime) (fmt : string)
    (L : string) (s : SessionStat) : Prop :=
  bucket_key_of fromisoformat fmt (s_updatedAt s) = Some L.

#[global] Instance stat_in_dec p fmt L s : Decision (stat_in p fmt L s).
Proof. unfold stat_in. apply _. Defined.

Definition sumZ (l : list Z) : Z := foldr Z.add 0 l.

(** The tokens of a session row, [s.get(key, 0) or 0]. *)
Definition tokens_in_of (s : SessionStat) : Z := default 0 (s_tokensIn s).
Definition tokens_out_of (s : SessionStat) : Z := default 0 (s_tokensOut s).

(** The session ids recorded by the events and by the session rows labelled
    [L]. *)
Definition event_sessions (fromisoformat : string → option datetime) (fmt : string)
    (L : string) (events : list ErrorEvent) : gset string :=
  list_to_set ((λ e, default "" (e_sessionId e))
                 <$> filter (registers fromisoformat fmt L) events).

Definition stat_sessions (fromisoformat : string → option datetime) (fmt : string)
    (L : string) (stats : list SessionStat) : gset string :=
  list_to_set ((λ s, default "" (s_id s)) <$> filter (stat_in fromisoformat fmt L) stats).

(** The summary of the bucket labelled [L]. *)
Definition summary_at (tb : buckets) (L : string) : Summary :=
  summary_of (L, default ∅ (tb !! L)).

(** The session row has a timestamp [build_time_series] can bucket. *)
Definition stat_parsable (fromisoformat : string → option datetime) (s : SessionStat)
    : Prop :=
  is_Some (parse_timestamp fromisoformat (s_updatedAt s)).

#[global] Instance stat_parsable_dec p s : Decision (stat_parsable p s).
Proof. unfold stat_parsable. apply _. Defined.

(** The event has a parsable timestamp and the type [ty]. *)
Definition parsable_of_type (fromisoformat : string → option datetime) (ty : string)
    (e : ErrorEvent) : Prop :=
  parsable fromisoformat e ∧ e_type e = Some ty.

#[global] Instance parsable_of_type_dec p ty e : Decision (parsable_of_type p ty e).
Proof. unfold parsable_of_type. apply _. Defined.

(** The order [sort(key=..., reverse=True)] leaves the list in: no element
    has a smaller timestamp than the one after it. *)
Definition not_before (a b : ErrorEvent) : Prop :=
  String.le (timestamp_key b) (timestamp_key a).

(** The session id of an event, [e.get('sessionId', '')]. *)
Definition session_id_of (e : ErrorEvent) : string := default "" (e_sessionId e).

(** The session id of a session row, [s.get('id', '')]. *)
Definition stat_id_of (s : SessionStat) : string := default "" (s_id s).

(** The length of the queried period of a range selector, in microseconds:
    [timedelta(hours=1)], [timedelta(days=1)], [timedelta(days=7)] and
    [timedelta(days=30)]. *)
Definition window_of (time_range : string) : Z :=
  if String.eqb time_range "hour" then 3600 * 1000000
  else if String.eqb time_range "day" then 86400 * 1000000
  else if String.eqb time_range "week" then 7 * 86400 * 1000000
  else 30 * 86400 * 1000000.

(** * The upstream query and the session lookup *)

(** A JSON value, as [resp.json()] returns it.  An object keeps its fields
    in the order of the text; Python's dictionary keeps the last value of a
    repeated key. *)
#[local] Unset Elimination Schemes.
Inductive json :=
  | JNull
  | JBool (b : bool)
  | JNum (n : Z)
  | JStr (s : string)
  | JArr (items : list json)
  | JObj (fields : list (string * json)).
#[local] Set Elimination Schemes.

(** [data.get(k)] on the dictionary of a JSON object. *)
Fixpoint obj_get (k : string) (fields : list (string * json)) : option json :=
  match fields with
  | [] => None
  | (k', v) :: rest =>
      match obj_get k rest with
      | Some v' => Some v'
      | None => if decide (k' = k) then Some v else None
      end
  end.

(** What [requests.post] does: it raises ([Failed]: no connection, timeout,
    ...) or returns a response with a status code and a body, which is JSON
    text or not. *)
Inductive http_outcome :=
  | Failed
  | Replied (status : Z) (body : option json).

(** Lines 105-108: the request body.  [params] is a dictionary, given by
    its items in order. *)
Definition build_payload (n1ql : string) (params : option (list (string * json)))
    : gmap string json :=
  let payload := {[ "statement" := JStr n1ql ]} in
  match params with
  | Some (kv :: rest) =>
      foldl (λ payload kv, <["$" +:+ kv.1 := kv.2]> payload) payload (kv :: rest)
  | _ => payload
  end.

(** [resp.raise_for_status()] raises on the 4xx and 5xx codes. *)
Definition raise_for_status (status : Z) : bool :=
  (400 <=? status) && (status <? 600).

(** Lines 102-123.  Every exception of the [try] block ends in [return []]. *)
Definition query_couchbase (post : gmap string json → http_outcome)
    (n1ql : string) (params : option (list (string * json))) : json :=
  match post (build_payload n1ql params) with
  | Failed => JArr []
  | Replied status body =>
      if raise_for_status status then JArr []
      else match body with
           | Some (JObj fields) => default (JArr []) (obj_get "results" fields)
           | _ => JArr []
           end
  end.

Definition dquote : string := String (ascii_of_nat 34) EmptyString.

(** Line 1235: the statement of the session lookup, for the configured
    bucket name. *)
Definition session_query (bucket session_id : string) : string :=
  "SELECT d.* FROM `" +:+ bucket +:+ "` d WHERE META(d).id = "
    +:+ dquote +:+ session_id +:+ dquote.

Definition not_found : json := JObj [("error", JStr "Session not found")].

(** Lines 1233-1239: the body and the status of the answer; [None] is an
    exception ([results[0]] on a value that is true but has no index 0). *)
Definition get_session (post : gmap string json → http_outcome)
    (bucket session_id : string) : option (json * Z) :=
  let results := query_couchbase post (session_query bucket session_id) None in
  match results with
  | JArr (row :: _) => Some (row, 200)
  | JStr (String c _) => Some (JStr (String c EmptyString), 200)
  | JArr [] | JNull | JBool false | JNum 0 | JStr EmptyString | JObj [] =>
      Some (not_found, 404)
  | JBool true | JNum _ | JObj (_ :: _) => None
  end.

(** The upstream answer carries no rows: the call failed, the status is an
    error, the body is not a JSON object, or the object has no [results]. *)
Definition no_rows (o : http_outcome) : Prop :=
  match o with
  | Failed => True
  | Replied status body =>
      raise_for_status status = true ∨
      match body with
      | Some (JObj fields) => obj_get "results" fields = None
      | _ => True
      end
  end.

(** A store whose queries all fail or find nothing. *)
Definition empty_store : Store :=
  mk_store (λ _, []) (λ _, []) (λ _, []) (λ _, []) (λ _, []).

(** An upstream that is down, and one that knows a single session. *)
Definition upstream_down : gmap string json → http_outcome := λ _, Failed.

Definition upstream_one_session : gmap string json → http_outcome :=
  λ _, Replied 200 (Some (JObj [("status", JStr "success");
                                 ("results", JArr [JObj [("id", JStr "A")]])])).

(** * The client: [escapeHtml] *)

(** Lines 744-747, in the script of the page.  [None] is [undefined] or
    [null]; with the empty string these are the falsy arguments a caller
    passes.  [str.replace(/c/g, new)] replaces every occurrence of the
    character [c]; the three replacement texts contain no [$], so they are
    inserted as they stand.  A string is the sequence of the bytes of its
    UTF-8 form; the three characters are single bytes, which occur in the
    encoding of no other character. *)
Definition escapeHtml (str : option string) : string :=
  match str with
  | None | Some EmptyString => ""
  | Some s => replace ">" "&gt;" (replace "<" "&lt;" (replace "&" "&amp;" s))
  end.

(** The text that stands for one character in the escaped string. *)
Definition escape_char (c : ascii) : string :=
  if Ascii.eqb c "&" then "&amp;"
  else if Ascii.eqb c "<" then "&lt;"
  else if Ascii.eqb c ">" then "&gt;"
  else String c EmptyString.

Fixpoint escape_each (s : string) : string :=
  match s with
  | EmptyString => EmptyString
  | String c s' => escape_char c +:+ escape_each s'
  end.


(** * The rollback test script, [docs/rollback_test_template.py] *)

(** The document of the script: function names to their code. *)
Definition document := gmap string string.

(** Lines 25-27.  [history] is the global list of the script, which every
    function here reads and returns; [copy.deepcopy] of a dictionary of
    strings is the same finite map. *)
Definition save_state (doc : document) (history : list document) : list document :=
  history ++ [doc].

(** Lines 29-33: the document returned and the history left by
    [history.pop()]. *)
Definition rollback (doc : document) (history : list document)
    : document * list document :=
  match last history with
  | Some previous => (previous, removelast history)
  | None => (doc, history)
  end.

(** Lines 35-40: the document is updated in place and returned. *)
Definition apply_change (doc : document) (func_name new_code : string)
    (history : list document) : document * list document :=
  let history := save_state doc history in
  (<[func_name := new_code]> doc, history).

(** The two loops of the script, lines 65-66 and 75-77, from any document
    and history. *)
Definition apply_changes (inputs : list (string * string))
    (st : document * list document) : document * list document :=
  foldl (λ st input, apply_change st.1 input.1 input.2 st.2) st inputs.

Definition rollbacks (n : nat) (st : document * list document)
    : document * list document :=
  Nat.iter n (λ st, rollback st.1 st.2) st.

(** The order of [sorted] on the items of a dictionary: tuples compare by
    their first components, then by their second. *)
Definition doc_item_le (x y : string * string) : Prop :=
  if decide (x.1 = y.1) then String.le x.2 y.2 else String.le x.1 y.1.

#[global] Instance doc_item_le_dec : RelDecision doc_item_le.
Proof. intros x y. unfold doc_item_le. destruct (decide (x.1 = y.1)); apply _. Defined.

Section RollbackScript.

(** [hashlib.md5(str(items).encode()).hexdigest()], of a sorted list of
    items. *)
Variable md5_of_items : list (string * string) → string.

(** Lines 20-23. *)
Definition get_md5 (doc : document) : string :=
  md5_of_items (merge_sort doc_item_le (map_to_list doc)).

(** Lines 49-92, for any original document, list of changes and number of
    rollbacks (the script has five of each): [true] when the script reports
    success, that is when the two hashes are equal. *)
Definition run_test (original_document : document)
    (fake_user_inputs : list (string * string)) (n : nat) : bool :=
  let document := original_document in
  let original_hash := get_md5 document in
  let st := apply_changes fake_user_inputs (document, []) in
  let st := rollbacks n st in
  let final_hash := get_md5 st.1 in
  bool_decide (original_hash = final_hash).

End RollbackScript.

(** The data of the script, lines 9-15 and 57-63. *)
Definition original_document : document :=
  {[ "func1" := "def greet(): return 'Hello'";
     "func2" := "def add(a, b): return a + b";
     "func3" := "def multiply(a, b): return a * b";
     "func4" := "def is_even(n): return n % 2 == 0";
     "func5" := "def uppercase(s): return s.upper()" ]}.

Definition fake_user_inputs : list (string * string) :=
  [ ("func1", "def greet(): return 'Bonjour!'");
    ("func2", "def add(a, b): return a + b + 100");
    ("func3", "def multiply(a, b): return a * b * 2");
    ("func4", "def is_even(n): return n % 2 != 0");
    ("func5", "def uppercase(s): return s.lower()") ].

(** A stand-in for the digest when the script is run on examples: the
    items written out one after the other. *)
Definition plain_digest (items : list (string * string)) : string :=
  foldr (λ item rest, item.1 +:+ "=" +:+ item.2 +:+ ";" +:+ rest) "" items.

(** * The functions of [docs/handoff_test_template.py] *)

(** Lines 56-62, on integers.  [isqrt n] is [int(n ** 0.5)], a floating
    point computation: [None] when it raises ([OverflowError] on an integer
    too large for a float). *)
Definition is_prime (isqrt : Z → option Z) (n : Z) : option bool :=
  if n <? 2 then Some false
  else
    bound ← isqrt n;
    Some (forallb (λ i, negb (n mod i =? 0)) (seqZ 2 (bound + 1 - 2))).

(** Lines 66-69, on integers.  [depth] is the number of frames the
    interpreter still allows; [None] is [RecursionError]. *)
Fixpoint factorial (depth : nat) (n : Z) : option Z :=
  match depth with
  | O => None
  | S depth =>
      if n <=? 1 then Some 1
      else r ← factorial depth (n - 1); Some (n * r)
  end.

(** Lines 99-106, on a list of integers; [None] is Python's [None]. *)
Definition find_max (numbers : list Z) : option Z :=
  match numbers with
  | [] => None
  | first :: rest =>
      Some (foldl (λ max_val num, if num >? max_val then num else max_val) first rest)
  end.

(** The floating point square root when it is exact. *)
Definition exact_isqrt (n : Z) : option Z := Some (Z.sqrt n).

(** * Properties *)

(** ** The parser and the label formats on examples *)

Example iso_parse_utc :
  IsoFormat.iso_parse (replace "Z" "+00:00" "2024-01-01T10:15:00Z")
  = Some (mk_datetime 2024 1 1 10 15 0 0 (Some 0)).
Proof. reflexivity. Qed.

Example iso_parse_offset :
  IsoFormat.iso_parse "2023-12-31T23:59:58.250-05:30"
  = Some (mk_datetime 2023 12 31 23 59 58 250000 (Some (-19800000000))).
Proof. reflexivity. Qed.

Example iso_parse_garbage : IsoFormat.iso_parse "not-a-date" = None.
Proof. reflexivity. Qed.

Example iso_parse_bad_day : IsoFormat.iso_parse "2023-02-29" = None.
Proof. reflexivity. Qed.

Example strftime_hour :
  strftime (mk_datetime 2024 1 1 10 15 0 0 (Some 0)) "%H:%M" = "10:15".
Proof. reflexivity. Qed.

Example strftime_day :
  strftime (mk_datetime 2024 1 1 10 15 0 0 (Some 0)) "%H:00" = "10:00".
Proof. reflexivity. Qed.

Example strftime_month :
  strftime (mk_datetime 2024 3 9 10 15 0 0 None) "%m/%d" = "03/09".
Proof. reflexivity. Qed.

(** ** Well-formed buckets *)

Lemma new_bucket_ok : bucket_ok new_bucket.
Proof.
  unfold bucket_ok, new_bucket. split_and!.
  - eexists. by simplify_map_eq.
  - intros k v Hk Hne.
    repeat (rewrite lookup_insert in Hk; case_decide; simplify_eq; eauto).
  - by simplify_map_eq.
  - by simplify_map_eq.
  - by simplify_map_eq.
Qed.

Lemma bucket_ok_insert_int d k n :
  bucket_ok d → k ≠ "sessions" → bucket_ok (<[k := VInt n]> d).
Proof.
  intros (Hs & Hi & H1 & H2 & H3) Hk. split_and!.
  - destruct Hs as [s Hs]. exists s. by rewrite lookup_insert_ne.
  - intros k' v Hv Hne. rewrite lookup_insert in Hv.
    case_decide; simplify_eq; eauto.
  - rewrite lookup_insert; case_decide; eauto.
  - rewrite lookup_insert; case_decide; eauto.
  - rewrite lookup_insert; case_decide; eauto.
Qed.

Lemma bucket_ok_insert_set d s :
  bucket_ok d → bucket_ok (<["sessions" := VSet s]> d).
Proof.
  intros (Hs & Hi & H1 & H2 & H3). split_and!.
  - exists s. by rewrite lookup_insert_eq.
  - intros k' v Hv Hne. rewrite lookup_insert_ne in Hv by done. eauto.
  - by rewrite lookup_insert_ne.
  - by rewrite lookup_insert_ne.
  - by rewrite lookup_insert_ne.
Qed.

Lemma bucket_ok_default d k :
  bucket_ok d → k ≠ "sessions" → default (VInt 0) (d !! k) = VInt (int_at d k).
Proof.
  intros (_ & Hi & _) Hk. unfold int_at.
  destruct (d !! k) as [v|] eqn:E; [|done].
  destruct (Hi _ _ E Hk) as [n ->]. done.
Qed.

Lemma add_session_ok d sid :
  bucket_ok d →
  add_session d sid = Some (<["sessions" := VSet ({[sid]} ∪ sessions_at d)]> d).
Proof.
  intros ([s Hs] & _). unfold add_session, sessions_at. by rewrite Hs.
Qed.

Lemma iadd_ok d k v :
  bucket_ok d → k ≠ "sessions" → is_Some (d !! k) →
  iadd d k v = Some (<[k := VInt (int_at d k + v)]> d).
Proof.
  intros (_ & Hi & _) Hk [x Hx]. unfold iadd, int_at. rewrite Hx.
  destruct (Hi _ _ Hx Hk) as [n ->]. done.
Qed.

Lemma getitem_ok tb key :
  buckets_ok tb →
  bucket_ok (getitem tb key).1 ∧ buckets_ok (getitem tb key).2 ∧
  (getitem tb key).2 !! key = Some (getitem tb key).1 ∧
  (getitem tb key).1 = default new_bucket (tb !! key) ∧
  (∀ L, L ≠ key → (getitem tb key).2 !! L = tb !! L).
Proof.
  intros Hok. unfold getitem. destruct (tb !! key) as [d|] eqn:E; simpl.
  - split_and!; eauto.
  - split_and!; eauto using new_bucket_ok.
    + by apply map_Forall_insert_2; [apply new_bucket_ok|].
    + by rewrite lookup_insert_eq.
    + intros L HL. by rewrite lookup_insert_ne.
Qed.

(** ** The two loop bodies *)

Section Steps.

Variable fromisoformat : string → option datetime.
Variable fmt : string.

Lemma count_error_spec tb e :
  buckets_ok tb →
  buckets_ok (count_error fromisoformat fmt tb e) ∧
  ∀ L k, k ≠ "sessions" →
    count_at (count_error fromisoformat fmt tb e) L k
    = count_at tb L k
      + (if decide (lands_in fromisoformat fmt L k e) then 1 else 0).
Proof.
  intros Hok. unfold count_error.
  destruct (bucket_key_of _ _ _) as [bk|] eqn:Ebk.
  2:{ split; [done|]. intros L k _. case_decide as H; [|lia].
      destruct H as [H _]. congruence. }
  destruct (getitem_ok tb bk Hok) as (Hd & Htb & Hlook & Hdef & Hother).
  destruct (getitem tb bk) as [data tb'] eqn:Eg. simpl in *.
  assert (Hcreate : ∀ L k, count_at tb' L k = count_at tb L k).
  { intros L k. unfold count_at. destruct (decide (L = bk)) as [->|Hne].
    - rewrite Hlook, Hdef. simpl. destruct (tb !! bk); [done|].
      simpl. unfold int_at, new_bucket.
      repeat (rewrite lookup_insert; case_decide; [done|]). done.
    - by rewrite Hother. }
  destruct (e_type e) as [ty|] eqn:Ety; simpl.
  2:{ split; [done|]. intros L k _. rewrite Hcreate.
      case_decide as H; [|lia]. destruct H as [_ H].
      unfold counter_key in H. by rewrite Ety in H. }
  assert (Hkey : counter_key e = Some (ty +:+ "s"))
    by (unfold counter_key; by rewrite Ety).
  destruct (decide (ty +:+ "s" = "sessions")) as [Hs|Hs].
  { destruct Hd as ([s Hset] & _). rewrite Hs, Hset. simpl.
    split; [done|]. intros L k Hk. rewrite Hcreate.
    case_decide as H; [|lia]. destruct H as [_ H]. congruence. }
  rewrite (bucket_ok_default _ _ Hd Hs).
  pose proof (bucket_ok_insert_int data (ty +:+ "s") (int_at data (ty +:+ "s") + 1) Hd Hs)
    as Hd'.
  rewrite (add_session_ok _ _ Hd'). rewrite insert_insert_eq.
  split.
  { apply map_Forall_insert_2; [|done]. by apply bucket_ok_insert_set. }
  intros L k Hk. unfold count_at at 1.
  destruct (decide (L = bk)) as [->|Hne].
  - rewrite lookup_insert_eq. simpl. unfold int_at at 1.
    rewrite lookup_insert_ne by done.
    rewrite <- Hcreate. unfold count_at. rewrite Hlook. simpl.
    destruct (decide (ty +:+ "s" = k)) as [<-|Hk'].
    + rewrite lookup_insert_eq. rewrite decide_True by done. done.
    + rewrite lookup_insert_ne by done. rewrite decide_False; [unfold int_at; lia|].
      intros [_ H]. congruence.
  - rewrite lookup_insert_ne by done. rewrite <- Hcreate. unfold count_at.
    rewrite decide_False; [lia|]. intros [H _]. congruence.
Qed.

Lemma add_session_stat_spec tb s :
  buckets_ok tb →
  buckets_ok (add_session_stat fromisoformat fmt tb s) ∧
  ∀ L k, k ∉ reserved →
    count_at (add_session_stat fromisoformat fmt tb s) L k = count_at tb L k.
Proof.
  intros Hok. unfold add_session_stat.
  destruct (bucket_key_of _ _ _) as [bk|] eqn:Ebk; [|done].
  destruct (getitem_ok tb bk Hok) as (Hd & Htb & Hlook & Hdef & Hother).
  destruct (getitem tb bk) as [data tb'] eqn:Eg. simpl in *.
  assert (Hcreate : ∀ L k, count_at tb' L k = count_at tb L k).
  { intros L k. unfold count_at. destruct (decide (L = bk)) as [->|Hne].
    - rewrite Hlook, Hdef. simpl. destruct (tb !! bk); [done|].
      simpl. unfold int_at, new_bucket.
      repeat (rewrite lookup_insert; case_decide; [done|]). done.
    - by rewrite Hother. }
  pose proof Hd as (_ & _ & Hin & Hout & Hsz).
  rewrite (iadd_ok _ "tokensIn" _ Hd) by done.
  set (d1 := <["tokensIn" := _]> data).
  assert (Hd1 : bucket_ok d1) by (by apply bucket_ok_insert_int).
  rewrite (iadd_ok _ "tokensOut" _ Hd1); [|done|by unfold d1; rewrite lookup_insert_ne].
  set (d2 := <["tokensOut" := _]> d1).
  assert (Hd2 : bucket_ok d2) by (by apply bucket_ok_insert_int).
  rewrite (iadd_ok _ "totalSizeBytes" _ Hd2);
    [|done|by unfold d2, d1; rewrite !lookup_insert_ne].
  set (d3 := <["totalSizeBytes" := _]> d2).
  assert (Hd3 : bucket_ok d3) by (by apply bucket_ok_insert_int).
  rewrite (add_session_ok _ _ Hd3). rewrite !insert_insert_eq.
  split.
  { apply map_Forall_insert_2; [|done]. by apply bucket_ok_insert_set. }
  intros L k Hk. rewrite <- Hcreate. unfold count_at.
  destruct (decide (L = bk)) as [->|Hne].
  - rewrite lookup_insert_eq, Hlook. simpl. unfold int_at, d3, d2, d1.
    unfold reserved in Hk. rewrite !not_elem_of_cons in Hk.
    rewrite !lookup_insert_ne; [done|intuition congruence..].
  - by rewrite lookup_insert_ne.
Qed.

Lemma count_errors_spec errors tb :
  buckets_ok tb →
  buckets_ok (foldl (count_error fromisoformat fmt) tb errors) ∧
  ∀ L k, k ≠ "sessions" →
    count_at (foldl (count_error fromisoformat fmt) tb errors) L k
    = count_at tb L k
      + Z.of_nat (length (filter (lands_in fromisoformat fmt L k) errors)).
Proof.
  revert tb. induction errors as [|e errors IH]; intros tb Hok; simpl.
  { split; [done|]. intros. lia. }
  destruct (count_error_spec tb e Hok) as [Hok' Hc].
  destruct (IH _ Hok') as [Hok'' Hc'].
  split; [done|]. intros L k Hk. rewrite Hc', Hc by done.
  rewrite filter_cons. case_decide; simpl; lia.
Qed.

Lemma add_session_stats_spec stats tb :
  buckets_ok tb →
  buckets_ok (foldl (add_session_stat fromisoformat fmt) tb stats) ∧
  ∀ L k, k ∉ reserved →
    count_at (foldl (add_session_stat fromisoformat fmt) tb stats) L k
    = count_at tb L k.
Proof.
  revert tb. induction stats as [|s stats IH]; intros tb Hok; simpl; [done|].
  destruct (add_session_stat_spec tb s Hok) as [Hok' Hc].
  destruct (IH _ Hok') as [Hok'' Hc'].
  split; [done|]. intros L k Hk. by rewrite Hc', Hc.
Qed.

End Steps.

(** ** The last loop *)

Lemma session_count_of_ok d :
  bucket_ok d → session_count_of d = Some (Z.max 1 (distinct_sessions d)).
Proof.
  intros ([s Hs] & _). unfold session_count_of, distinct_sessions, sessions_at.
  rewrite Hs. f_equal. destruct (Z.eqb_spec (Z.of_nat (size s)) 0); lia.
Qed.

Lemma get_int_ok d k :
  bucket_ok d → k ≠ "sessions" → get_int d k = Some (int_at d k).
Proof. intros Hd Hk. unfold get_int. by rewrite (bucket_ok_default _ _ Hd Hk). Qed.

Lemma true_div_max a n :
  true_div a (Z.max 1 n) = Some (inject_Z a / inject_Z (Z.max 1 n))%Q.
Proof. unfold true_div. destruct (Z.eqb_spec (Z.max 1 n) 0); [lia|done]. Qed.

Lemma summarise_ok item :
  bucket_ok item.2 → summarise item = Some (summary_of item).
Proof.
  destruct item as [p d]. simpl. intros Hd. unfold summarise.
  rewrite (session_count_of_ok _ Hd). simpl.
  rewrite !(get_int_ok _ _ Hd) by done. simpl.
  rewrite !true_div_max. done.
Qed.

Lemma sorted_items_ok tb :
  buckets_ok tb → Forall (λ item, bucket_ok item.2) (sorted_items tb).
Proof.
  intros Hok. unfold sorted_items. rewrite merge_sort_Permutation.
  apply Forall_forall. intros [L d] Hin. apply elem_of_map_to_list in Hin.
  by apply (Hok L d).
Qed.

Lemma emit_ok tb :
  buckets_ok tb → mapM summarise (sorted_items tb) = Some (summary_of <$> sorted_items tb).
Proof.
  intros Hok. apply mapM_Some. apply Forall2_fmap_r, Forall_Forall2_diag.
  eapply Forall_impl; [by apply sorted_items_ok|].
  intros item Hitem. by apply summarise_ok.
Qed.

#[local] Instance item_le_total : Total item_le.
Proof. intros x y. unfold item_le. apply (total String.le). Qed.

#[local] Instance item_le_trans : Transitive item_le.
Proof. intros x y z. unfold item_le. apply transitivity. Qed.

Lemma string_compare_refl s : String.compare s s = Eq.
Proof.
  induction s as [|c s IH]; simpl; [done|].
  unfold Ascii.compare. by rewrite N.compare_refl.
Qed.

Lemma label_lt_iff a b : label_lt a b ↔ String.le a b ∧ a ≠ b.
Proof.
  unfold label_lt, String.le, String.ltb, String.leb.
  destruct (String.compare a b) eqn:E; simpl.
  - apply String.compare_eq_iff in E. subst. split; [done|]. intros [_ H]. done.
  - split; [|done]. intros _. split; [done|]. intros ->.
    by rewrite string_compare_refl in E.
  - split; [done|]. intros [H _]. done.
Qed.

Lemma sorted_items_labels tb :
  StronglySorted label_lt (sorted_items tb).*1.
Proof.
  assert (Hs : StronglySorted item_le (sorted_items tb))
    by (apply StronglySorted_merge_sort; apply _).
  assert (Hn : NoDup (sorted_items tb).*1).
  { unfold sorted_items. rewrite merge_sort_Permutation. apply NoDup_fst_map_to_list. }
  induction Hs as [|x l Hs IH Hx]; simpl; [constructor|].
  apply NoDup_cons in Hn as [Hnx Hn].
  constructor; [by apply IH|].
  apply Forall_fmap, Forall_forall. intros y Hy. simpl.
  apply label_lt_iff. split.
  - rewrite Forall_forall in Hx. by apply Hx.
  - intros Heq. apply Hnx. rewrite Heq. apply list_elem_of_fmap. eauto.
Qed.

Lemma period_summary_of l : period <$> (summary_of <$> l) = l.*1.
Proof. rewrite <- list_fmap_compose. done. Qed.

(** ** [time_buckets] *)

Section Buckets.

Variable fromisoformat : string → option datetime.

Lemma time_buckets_spec errors time_range session_stats :
  buckets_ok (time_buckets fromisoformat errors time_range session_stats) ∧
  ∀ L k, k ∉ reserved →
    count_at (time_buckets fromisoformat errors time_range session_stats) L k
    = Z.of_nat (length (filter (lands_in fromisoformat (bucket_format time_range) L k)
                               errors)).
Proof.
  unfold time_buckets.
  destruct (count_errors_spec fromisoformat (bucket_format time_range) errors ∅)
    as [Hok Hc]; [apply map_Forall_empty|].
  assert (Hc' : ∀ L k, k ∉ reserved →
    count_at (foldl (count_error fromisoformat (bucket_format time_range)) ∅ errors) L k
    = Z.of_nat (length (filter (lands_in fromisoformat (bucket_format time_range) L k)
                               errors))).
  { intros L k Hk. rewrite Hc by (intros ->; apply Hk; left).
    unfold count_at. by rewrite lookup_empty. }
  destruct session_stats as [[|s rest]|]; [done| |done].
  destruct (add_session_stats_spec fromisoformat (bucket_format time_range)
              (s :: rest) _ Hok) as [Hok' Hs].
  split; [done|]. intros L k Hk. by rewrite Hs, Hc'.
Qed.

Lemma build_time_series_eq errors time_range total_sessions session_stats :
  build_time_series fromisoformat errors time_range total_sessions session_stats
  = Some (summary_of <$>
            sorted_items (time_buckets fromisoformat errors time_range session_stats)).
Proof. apply emit_ok, time_buckets_spec. Qed.

End Buckets.

(** ** Which buckets exist *)

Section Labels.

Variable fromisoformat : string → option datetime.
Variable fmt : string.

Lemma count_error_lookup tb e L :
  is_Some (count_error fromisoformat fmt tb e !! L)
  ↔ is_Some (tb !! L) ∨ bucket_key_of fromisoformat fmt (e_timestamp e) = Some L.
Proof.
  unfold count_error, getitem, add_session.
  destruct (bucket_key_of _ _ _) as [bk|]; [|intuition congruence].
  destruct (tb !! bk) as [d|] eqn:Ed;
    repeat case_match; simplify_eq;
    rewrite ?lookup_insert_is_Some; destruct (decide (bk = L));
    subst; rewrite ?Ed; intuition (eauto; congruence).
Qed.

Lemma add_session_stat_lookup tb s L :
  is_Some (add_session_stat fromisoformat fmt tb s !! L)
  ↔ is_Some (tb !! L) ∨ bucket_key_of fromisoformat fmt (s_updatedAt s) = Some L.
Proof.
  unfold add_session_stat, getitem, add_session, iadd.
  destruct (bucket_key_of _ _ _) as [bk|]; [|intuition congruence].
  destruct (tb !! bk) as [d|] eqn:Ed;
    repeat case_match; simplify_eq;
    rewrite ?lookup_insert_is_Some; destruct (decide (bk = L));
    subst; rewrite ?Ed; intuition (eauto; congruence).
Qed.

Lemma count_errors_lookup errors tb L :
  is_Some (foldl (count_error fromisoformat fmt) tb errors !! L)
  ↔ is_Some (tb !! L)
    ∨ ∃ e, e ∈ errors ∧ bucket_key_of fromisoformat fmt (e_timestamp e) = Some L.
Proof.
  revert tb. induction errors as [|e errors IH]; intros tb; simpl.
  { split; [auto|]. intros [?|(e & He & _)]; [done|]. by apply elem_of_nil in He. }
  rewrite IH, count_error_lookup. split.
  - intros [[?|?]|(e' & ? & ?)]; eauto.
    + right. exists e. split; [left|done].
    + right. exists e'. split; [by right|done].
  - intros [?|(e' & He & ?)]; [auto|].
    apply elem_of_cons in He as [->|He]; eauto.
Qed.

Lemma add_session_stats_lookup stats tb L :
  is_Some (foldl (add_session_stat fromisoformat fmt) tb stats !! L)
  ↔ is_Some (tb !! L)
    ∨ ∃ s, s ∈ stats ∧ bucket_key_of fromisoformat fmt (s_updatedAt s) = Some L.
Proof.
  revert tb. induction stats as [|s stats IH]; intros tb; simpl.
  { split; [auto|]. intros [?|(e & He & _)]; [done|]. by apply elem_of_nil in He. }
  rewrite IH, add_session_stat_lookup. split.
  - intros [[?|?]|(e' & ? & ?)]; eauto.
    + right. exists s. split; [left|done].
    + right. exists e'. split; [by right|done].
  - intros [?|(e' & He & ?)]; [auto|].
    apply elem_of_cons in He as [->|He]; eauto.
Qed.

End Labels.

Lemma time_buckets_lookup fromisoformat errors time_range session_stats L :
  is_Some (time_buckets fromisoformat errors time_range session_stats !! L)
  ↔ (∃ e, e ∈ errors
        ∧ bucket_key_of fromisoformat (bucket_format time_range) (e_timestamp e) = Some L)
    ∨ (∃ s, s ∈ default [] session_stats
        ∧ bucket_key_of fromisoformat (bucket_format time_range) (s_updatedAt s) = Some L).
Proof.
  unfold time_buckets.
  assert (He : ∀ l : list SessionStat, l = [] →
    (is_Some (foldl (count_error fromisoformat (bucket_format time_range)) ∅ errors !! L)
     ↔ (∃ e, e ∈ errors
          ∧ bucket_key_of fromisoformat (bucket_format time_range) (e_timestamp e) = Some L)
       ∨ (∃ s, s ∈ l
          ∧ bucket_key_of fromisoformat (bucket_format time_range) (s_updatedAt s) = Some L))).
  { intros l ->. rewrite count_errors_lookup, lookup_empty. split.
    - intros [H|H]; [by destruct H|auto].
    - intros [H|(s & Hs & _)]; [auto|]. by apply elem_of_nil in Hs. }
  destruct session_stats as [[|s rest]|]; [by apply He|..|by apply He].
  change (default [] (Some (s :: rest))) with (s :: rest).
  rewrite add_session_stats_lookup, count_errors_lookup, lookup_empty. split.
  - intros [[H|H]|H]; [by destruct H|auto..].
  - intros [H|H]; auto.
Qed.

Lemma sorted_items_labels_elem tb L :
  L ∈ (sorted_items tb).*1 ↔ is_Some (tb !! L).
Proof.
  unfold sorted_items. rewrite merge_sort_Permutation. split.
  - intros H. apply list_elem_of_fmap in H as ([L' d] & -> & Hin).
    apply elem_of_map_to_list in Hin. eauto.
  - intros [d Hd]. apply list_elem_of_fmap. exists (L, d).
    split; [done|]. by apply elem_of_map_to_list.
Qed.

Lemma app_s_inj (t1 t2 : string) : t1 +:+ "s" = t2 +:+ "s" → t1 = t2.
Proof.
  revert t2. induction t1 as [|c t1 IH]; intros [|c' t2] H; simpl in H.
  - done.
  - injection H as _ H. by destruct t2.
  - injection H as _ H. by destruct t1.
  - injection H as -> H. f_equal. by apply IH.
Qed.

Lemma lands_in_counted_as fromisoformat fmt L ty errors :
  Z.of_nat (length (filter (lands_in fromisoformat fmt L (ty +:+ "s")) errors))
  = events_in fromisoformat fmt L ty errors.
Proof.
  unfold events_in. do 2 f_equal. apply list_filter_iff. intros e.
  unfold lands_in, counted_as, counter_key. split; intros [H1 H2]; split; try done.
  - destruct (e_type e) as [ty'|]; simplify_eq/=. f_equal. by apply app_s_inj.
  - by rewrite H2.
Qed.

Lemma event_types_not_reserved ty : ty ∈ event_types → ty +:+ "s" ∉ reserved.
Proof.
  unfold event_types. intros H.
  repeat (apply elem_of_cons in H as [->|H];
          [apply (bool_decide_unpack _); by vm_compute|]).
  by apply elem_of_nil in H.
Qed.

Lemma strftime_label time_range dt :
  strftime dt (bucket_format time_range) = label_of time_range dt.
Proof.
  unfold bucket_format, label_of.
  destruct (String.eqb_spec time_range "hour") as [->|H1]; [done|].
  rewrite decide_False by done.
  destruct (String.eqb_spec time_range "day") as [->|H2]; [done|].
  rewrite decide_False by done.
  by destruct (String.eqb time_range "week").
Qed.

Lemma bucket_key_of_label fromisoformat time_range ts dt :
  parse_timestamp fromisoformat ts = Some dt →
  bucket_key_of fromisoformat (bucket_format time_range) ts
  = Some (label_of time_range dt).
Proof. intros H. unfold bucket_key_of. rewrite H. simpl. by rewrite strftime_label. Qed.

(** Every emitted summary is the summary of the bucket of its label. *)
Lemma emitted_summary fromisoformat errors time_range total_sessions session_stats result r :
  build_time_series fromisoformat errors time_range total_sessions session_stats
  = Some result →
  r ∈ result →
  ∃ d, time_buckets fromisoformat errors time_range session_stats !! period r = Some d
       ∧ bucket_ok d ∧ r = summary_of (period r, d).
Proof.
  rewrite build_time_series_eq. intros [= <-] Hr.
  apply list_elem_of_fmap in Hr as ([L d] & -> & Hin).
  unfold sorted_items in Hin. rewrite merge_sort_Permutation in Hin.
  apply elem_of_map_to_list in Hin. exists d. split_and!; [done| |done].
  by apply (proj1 (time_buckets_spec fromisoformat errors time_range session_stats) L d).
Qed.

(** ** The claims about [build_time_series] *)

(** C1.  Every event whose timestamp parses is counted in exactly one time
    bucket, the one labelled with its formatted timestamp ([HH:MM] for
    [hour], [HH:00] for [day], [MM/DD] otherwise): for each of the four
    event types, the counter of that type in the bucket labelled [L] is the
    number of events of that type whose label is [L]; the labels of the
    emitted buckets are pairwise distinct, and the bucket of every such
    event is among them. *)
Theorem event_counted_in_exactly_one_bucket
    fromisoformat events time_range total_sessions session_stats ty :
  ty ∈ event_types →
  let fmt := bucket_format time_range in
  let tb := time_buckets fromisoformat events time_range session_stats in
  (∀ L, count_at tb L (ty +:+ "s") = events_in fromisoformat fmt L ty events) ∧
  ∃ result,
    build_time_series fromisoformat events time_range total_sessions session_stats
    = Some result ∧
    NoDup (period <$> result) ∧
    ∀ e dt, e ∈ events → parse_timestamp fromisoformat (e_timestamp e) = Some dt →
      bucket_key_of fromisoformat fmt (e_timestamp e) = Some (label_of time_range dt) ∧
      label_of time_range dt ∈ period <$> result.
Proof.
  intros Hty fmt tb.
  destruct (time_buckets_spec fromisoformat events time_range session_stats) as [Hok Hc].
  split.
  { intros L. unfold tb. rewrite Hc by by apply event_types_not_reserved.
    apply lands_in_counted_as. }
  eexists. split; [apply build_time_series_eq|].
  rewrite period_summary_of. split.
  { unfold sorted_items. rewrite merge_sort_Permutation. apply NoDup_fst_map_to_list. }
  intros e dt He Hdt.
  pose proof (bucket_key_of_label fromisoformat time_range _ _ Hdt) as Hkey.
  split; [done|].
  apply sorted_items_labels_elem, time_buckets_lookup. left. eauto.
Qed.


(** C6, for the types a summary carries.  Every emitted summary holds the
    raw counts of the bug, failure and error events of its bucket.  A cli
    event with a parsable timestamp has its bucket emitted, but it is
    accumulated under the key [clis], which no field of the summary
    reads. *)
Theorem summary_counts_bug_failure_error
    fromisoformat events time_range total_sessions session_stats :
  let fmt := bucket_format time_range in
  (∃ result,
    build_time_series fromisoformat events time_range total_sessions session_stats
    = Some result ∧
    (∀ r, r ∈ result →
       bugs r = events_in fromisoformat fmt (period r) "bug" events ∧
       failures r = events_in fromisoformat fmt (period r) "failure" events ∧
       errors r = events_in fromisoformat fmt (period r) "error" events) ∧
    (∀ e L, e ∈ events → counted_as fromisoformat fmt L "cli" e →
       L ∈ period <$> result)) ∧
  (∀ L, count_at (time_buckets fromisoformat events time_range session_stats) L "clis"
        = events_in fromisoformat fmt L "cli" events) ∧
  (∀ label data v, summarise (label, <["clis" := v]> data) = summarise (label, data)).
Proof.
  intros fmt.
  destruct (time_buckets_spec fromisoformat events time_range session_stats) as [Hok Hc].
  assert (Hcount : ∀ ty L, ty ∈ event_types →
    count_at (time_buckets fromisoformat events time_range session_stats) L (ty +:+ "s")
    = events_in fromisoformat fmt L ty events).
  { intros ty L Hty. rewrite Hc by by apply event_types_not_reserved.
    apply lands_in_counted_as. }
  split_and!.
  - eexists. split; [apply build_time_series_eq|]. split.
    + intros r Hr.
      destruct (emitted_summary fromisoformat events time_range total_sessions session_stats
                  _ r (build_time_series_eq _ _ _ _ _) Hr) as (d & Hd & _ & Hr').
      rewrite <- !Hcount by (apply (bool_decide_unpack _); by vm_compute).
      unfold count_at. rewrite Hd. simpl. by rewrite Hr'.
    + intros e L He [HL _]. rewrite period_summary_of.
      apply sorted_items_labels_elem, time_buckets_lookup. left. eauto.
  - intros L. apply (Hcount "cli"). apply (bool_decide_unpack _). by vm_compute.
  - intros label data v. unfold summarise, session_count_of, get_int.
    by rewrite !lookup_insert_ne by done.
Qed.

(** ** Labels and chronology *)

Lemma digit_compare x y :
  Ascii.compare (digit x) (digit y) = (x mod 10 ?= y mod 10).
Proof.
  unfold digit.
  assert (Hx : 0 <= x mod 10 < 10) by (apply Z.mod_pos_bound; lia).
  assert (Hy : 0 <= y mod 10 < 10) by (apply Z.mod_pos_bound; lia).
  generalize dependent (x mod 10). generalize dependent (y mod 10).
  intros b Hb a Ha.
  assert (Ea : a = 0 ∨ a = 1 ∨ a = 2 ∨ a = 3 ∨ a = 4 ∨ a = 5 ∨ a = 6 ∨ a = 7
               ∨ a = 8 ∨ a = 9) by lia.
  assert (Eb : b = 0 ∨ b = 1 ∨ b = 2 ∨ b = 3 ∨ b = 4 ∨ b = 5 ∨ b = 6 ∨ b = 7
               ∨ b = 8 ∨ b = 9) by lia.
  clear Ha Hb.
  repeat destruct Ea as [->|Ea]; try subst a;
    repeat destruct Eb as [->|Eb]; try subst b; reflexivity.
Qed.

Lemma string_compare_cons a b s t :
  String.compare (String a s) (String b t)
  = match Ascii.compare a b with Eq => String.compare s t | c => c end.
Proof. simpl. by destruct (Ascii.compare a b). Qed.

Lemma pad2_append n s : pad2 n +:+ s = String (digit (n / 10)) (String (digit n) s).
Proof. reflexivity. Qed.

Lemma pad2_compare a b s t :
  0 <= a < 100 → 0 <= b < 100 →
  String.compare (pad2 a +:+ s) (pad2 b +:+ t)
  = match a ?= b with Eq => String.compare s t | c => c end.
Proof.
  intros Ha Hb. rewrite !pad2_append, !string_compare_cons, !digit_compare.
  rewrite (Z.mod_small (a / 10)), (Z.mod_small (b / 10))
    by (split; [apply Z.div_pos; lia|apply Z.div_lt_upper_bound; lia]).
  pose proof (Z.div_mod a 10 ltac:(lia)) as Da.
  pose proof (Z.div_mod b 10 ltac:(lia)) as Db.
  pose proof (Z.mod_pos_bound a 10 ltac:(lia)).
  pose proof (Z.mod_pos_bound b 10 ltac:(lia)).
  destruct (Z.compare_spec (a / 10) (b / 10)) as [Hq|Hq|Hq].
  - destruct (Z.compare_spec (a mod 10) (b mod 10)) as [Hr|Hr|Hr];
      destruct (Z.compare_spec a b); try lia; done.
  - destruct (Z.compare_spec a b); try lia; done.
  - destruct (Z.compare_spec a b); try lia; done.
Qed.

Lemma valid_datetime_bounds dt :
  valid_datetime dt = true →
  1 <= year dt ∧ 1 <= month dt <= 12 ∧ 1 <= day dt <= days_in_month (year dt) (month dt) ∧
  0 <= hour dt <= 23 ∧ 0 <= minute dt <= 59 ∧ 0 <= second dt <= 59 ∧
  0 <= microsecond dt <= 999999.
Proof.
  unfold valid_datetime. rewrite !andb_true_iff, !Z.leb_le. tauto.
Qed.

Lemma days_before_month_mono y m1 m2 d1 :
  1 <= m1 → m1 < m2 → m2 <= 12 → d1 <= days_in_month y m1 →
  days_before_month y m1 + d1 <= days_before_month y m2.
Proof.
  intros H1 H2 H3 Hd.
  assert (E1 : m1 = 1 ∨ m1 = 2 ∨ m1 = 3 ∨ m1 = 4 ∨ m1 = 5 ∨ m1 = 6 ∨ m1 = 7 ∨ m1 = 8
               ∨ m1 = 9 ∨ m1 = 10 ∨ m1 = 11) by lia.
  assert (E2 : m2 = 2 ∨ m2 = 3 ∨ m2 = 4 ∨ m2 = 5 ∨ m2 = 6 ∨ m2 = 7 ∨ m2 = 8
               ∨ m2 = 9 ∨ m2 = 10 ∨ m2 = 11 ∨ m2 = 12) by lia.
  unfold days_before_month, days_in_month in *.
  repeat destruct E1 as [->|E1]; try subst m1;
    repeat destruct E2 as [->|E2]; try subst m2;
    try lia; simpl in *; destruct (is_leap y); simpl in *; lia.
Qed.

Lemma sep_compare c s t :
  String.compare (String c "" +:+ s) (String c "" +:+ t) = String.compare s t.
Proof.
  simpl.
  unfold Ascii.compare. by rewrite N.compare_refl.
Qed.

Lemma label_lt_earlier time_range a b :
  valid_datetime a = true → valid_datetime b = true →
  same_window time_range a b →
  label_lt (label_of time_range a) (label_of time_range b) →
  earlier a b.
Proof.
  intros Ha Hb (Hoff & Hy & Hday).
  apply valid_datetime_bounds in Ha, Hb.
  unfold label_lt, String.ltb, label_of, earlier, instant, toordinal.
  rewrite Hoff, Hy.
  destruct (decide (time_range = "hour")) as [Hh|Hh];
    [|destruct (decide (time_range = "day")) as [Hd|Hd]].
  - destruct Hday as [-> ->]; [auto|].
    change (pad2 (minute a)) with (pad2 (minute a) +:+ "").
    change (pad2 (minute b)) with (pad2 (minute b) +:+ "").
    rewrite pad2_compare, sep_compare, pad2_compare by lia.
    destruct (Z.compare_spec (hour a) (hour b));
      destruct (Z.compare_spec (minute a) (minute b)); try done; intros _; lia.
  - destruct Hday as [-> ->]; [auto|].
    rewrite pad2_compare, string_compare_refl by lia.
    destruct (Z.compare_spec (hour a) (hour b)); try done; intros _; lia.
  - change (pad2 (day a)) with (pad2 (day a) +:+ "").
    change (pad2 (day b)) with (pad2 (day b) +:+ "").
    assert (Hda : day a < 100) by (unfold days_in_month in Ha; repeat case_match; lia).
    assert (Hdb : day b < 100) by (unfold days_in_month in Hb; repeat case_match; lia).
    rewrite pad2_compare, sep_compare, pad2_compare by lia.
    destruct (Z.compare_spec (month a) (month b)) as [Hm|Hm|Hm].
    + destruct (Z.compare_spec (day a) (day b)); try done. intros _.
      rewrite Hm. lia.
    + intros _.
      pose proof (days_before_month_mono (year b) (month a) (month b) (day a)
                    ltac:(lia) Hm ltac:(lia) ltac:(rewrite <- Hy; lia)).
      lia.
    + done.
Qed.

Lemma StronglySorted_lookup_lt {A} (R : relation A) (l : list A) i j x y :
  StronglySorted R l → l !! i = Some x → l !! j = Some y → (i < j)%nat → R x y.
Proof.
  intros Hs. revert i j. induction Hs as [|z l Hs IH Hz]; intros i j Hi Hj Hlt.
  { by rewrite lookup_nil in Hi. }
  destruct j as [|j]; [lia|]. simpl in Hj.
  destruct i as [|i]; simpl in Hi.
  - simplify_eq. rewrite Forall_forall in Hz. apply Hz.
    by eapply list_elem_of_lookup_2.
  - eapply IH; eauto. lia.
Qed.

(** C5.  Two bugs of sessions A and B, at 10:15 and at 10:45 of the same
    day, under the range [hour] and without session statistics: exactly
    two buckets, ["10:15"] and ["10:45"], each with [bugs = 1] and
    [avgPerSession = 1.0].  This holds with any parser that reads the two
    timestamps as 10:15 and 10:45. *)
Theorem two_bugs_in_one_hour fromisoformat dtA dtB total_sessions session_stats :
  fromisoformat "2024-01-01T10:15:00+00:00" = Some dtA →
  hour dtA = 10 → minute dtA = 15 →
  fromisoformat "2024-01-01T10:45:00+00:00" = Some dtB →
  hour dtB = 10 → minute dtB = 45 →
  session_stats = None ∨ session_stats = Some [] →
  build_time_series fromisoformat [bug_at_1015; bug_at_1045] "hour"
                    total_sessions session_stats
  = Some [mk_summary "10:15" 1 0 0 1%Q 0 0 0%Q; mk_summary "10:45" 1 0 0 1%Q 0 0 0%Q].
Proof.
  intros HA HhA HmA HB HhB HmB Hstats.
  assert (HkA : bucket_key_of fromisoformat "%H:%M" (e_timestamp bug_at_1015)
                = Some "10:15").
  { change (bucket_key_of fromisoformat "%H:%M" (e_timestamp bug_at_1015))
      with (fromisoformat "2024-01-01T10:15:00+00:00"
            ≫= λ dt, Some (pad2 (hour dt) +:+ ":" +:+ pad2 (minute dt))).
    rewrite HA. cbn [mbind option_bind]. by rewrite HhA, HmA. }
  assert (HkB : bucket_key_of fromisoformat "%H:%M" (e_timestamp bug_at_1045)
                = Some "10:45").
  { change (bucket_key_of fromisoformat "%H:%M" (e_timestamp bug_at_1045))
      with (fromisoformat "2024-01-01T10:45:00+00:00"
            ≫= λ dt, Some (pad2 (hour dt) +:+ ":" +:+ pad2 (minute dt))).
    rewrite HB. cbn [mbind option_bind]. by rewrite HhB, HmB. }
  assert (Htb : time_buckets fromisoformat [bug_at_1015; bug_at_1045] "hour" session_stats
                = time_buckets fromisoformat [bug_at_1015; bug_at_1045] "hour" None)
    by (by destruct Hstats as [->| ->]).
  unfold build_time_series. rewrite Htb.
  unfold time_buckets. change (bucket_format "hour") with "%H:%M".
  cbn [foldl]. unfold count_error. rewrite HkA, HkB. by vm_compute.
Qed.

(** A cli event against C6: it is counted into its bucket, yet the
    emitted summary has no count for it, and a second cli event of the same
    session leaves the output as it was. *)
Lemma cli_count_not_emitted :
  ∃ result,
    build_time_series IsoFormat.iso_parse [cli_at_1045] "hour" 1 None = Some result ∧
    result = [mk_summary "10:45" 0 0 0 0%Q 0 0 0%Q] ∧
    count_at (time_buckets IsoFormat.iso_parse [cli_at_1045] "hour" None) "10:45" "clis" = 1 ∧
    ¬ emits_every_type_count IsoFormat.iso_parse [cli_at_1045] "hour" result ∧
    build_time_series IsoFormat.iso_parse [cli_at_1045; cli_at_1045] "hour" 1 None
    = Some result.
Proof.
  eexists. split; [by vm_compute|]. split; [done|]. split; [by vm_compute|].
  split; [|by vm_compute].
  intros H. specialize (H (mk_summary "10:45" 0 0 0 0%Q 0 0 0%Q) "cli").
  assert (Hr : mk_summary "10:45" 0 0 0 0%Q 0 0 0%Q
               ∈ [mk_summary "10:45" 0 0 0 0%Q 0 0 0%Q]) by left.
  assert (Hty : "cli" ∈ event_types) by (apply (bool_decide_unpack _); by vm_compute).
  specialize (H Hr Hty). vm_compute in H. discriminate H.
Qed.

(** C7, within one day or one year.  The emitted buckets are sorted by
    label in strictly ascending lexicographic order.  Between two
    timestamps with the same offset from UTC that fall on the same calendar day (labels [HH:MM] and
    [HH:00]) or in the same calendar year (label [MM/DD]), that order is
    chronological: the timestamp of the bucket that comes first is the
    earlier one. *)
Theorem buckets_sorted_by_label
    fromisoformat events time_range total_sessions session_stats :
  ∃ result,
    build_time_series fromisoformat events time_range total_sessions session_stats
    = Some result ∧
    StronglySorted label_lt (period <$> result) ∧
    ∀ dt1 dt2 (i j : nat),
      valid_datetime dt1 = true → valid_datetime dt2 = true →
      same_window time_range dt1 dt2 →
      (period <$> result) !! i = Some (label_of time_range dt1) →
      (period <$> result) !! j = Some (label_of time_range dt2) →
      (i < j)%nat →
      earlier dt1 dt2.
Proof.
  eexists. split; [apply build_time_series_eq|].
  rewrite period_summary_of.
  pose proof (sorted_items_labels
                (time_buckets fromisoformat events time_range session_stats)) as Hs.
  split; [done|].
  intros dt1 dt2 i j H1 H2 Hw Hi Hj Hlt.
  apply (label_lt_earlier time_range); [done..|].
  by eapply (StronglySorted_lookup_lt label_lt).
Qed.

(** A year's end against C7: under the range [all] a bug of 1 January
    2024 is emitted before a bug of 31 December 2023. *)
Lemma label_order_not_chronological :
  ∃ result,
    build_time_series IsoFormat.iso_parse [bug_new_years_eve; bug_new_years_day] "all"
                      1 None = Some result ∧
    period <$> result = ["01/01"; "12/31"] ∧
    ¬ chronological IsoFormat.iso_parse [bug_new_years_eve; bug_new_years_day] "all"
        result.
Proof.
  eexists. split; [by vm_compute|]. split; [done|].
  intros H.
  specialize (H bug_new_years_day bug_new_years_eve
                (mk_datetime 2024 1 1 1 0 0 0 (Some 0))
                (mk_datetime 2023 12 31 23 0 0 0 (Some 0)) 0%nat 1%nat).
  assert (earlier (mk_datetime 2024 1 1 1 0 0 0 (Some 0))
                  (mk_datetime 2023 12 31 23 0 0 0 (Some 0))) as Hbad.
  { apply H; [by right; left|by left|done..|lia]. }
  vm_compute in Hbad. discriminate Hbad.
Qed.


(** ** The session classifier *)

Lemma is_extended_more_than_one_part s : is_extended s = more_than_one_part s.
Proof.
  unfold is_extended, more_than_one_part.
  by destruct (s_extensionInfo s) as [[[n|]]|].
Qed.

Lemma truthy_has_reference r : truthy (default "" r) = has_reference r.
Proof. by destruct r as [[|c r]|]. Qed.

Lemma classify_session_category acc s :
  classify_session acc s
  = (bump (category_of s) acc.1,
     <[default "" (s_id s) := category_name (category_of s)]> acc.2).
Proof.
  destruct acc as [t m]. unfold classify_session, category_of, is_handoff.
  rewrite is_extended_more_than_one_part, !truthy_has_reference.
  destruct (more_than_one_part s); [done|].
  by destruct (has_reference (s_parentSessionId s) || has_reference (s_handoffToSessionId s)).
Qed.

Lemma classify_map stats acc sid :
  (foldl classify_session acc stats).2 !! sid
  = match last (filter (λ s, default "" (s_id s) = sid) stats) with
    | Some s => Some (category_name (category_of s))
    | None => acc.2 !! sid
    end.
Proof.
  revert acc. induction stats as [|s stats IH]; intros acc; simpl; [done|].
  rewrite IH, classify_session_category. simpl. rewrite filter_cons.
  destruct (decide (default "" (s_id s) = sid)) as [Hs|Hs].
  - destruct (filter _ stats) as [|s' l] eqn:E; simpl.
    + by rewrite Hs, lookup_insert_eq.
    + rewrite last_cons. simpl. by destruct (last l).
  - destruct (last (filter _ stats)); [done|]. by rewrite lookup_insert_ne.
Qed.

Lemma classify_counts stats acc c :
  count_of c (foldl classify_session acc stats).1
  = count_of c acc.1
    + Z.of_nat (length (filter (λ s, category_of s = c) stats)).
Proof.
  revert acc. induction stats as [|s stats IH]; intros acc; simpl; [lia|].
  rewrite IH, classify_session_category. simpl. rewrite filter_cons.
  destruct (decide (category_of s = c)) as [<-|Hne]; simpl.
  - destruct (category_of s); simpl; lia.
  - destruct (category_of s), c; simpl; try done; lia.
Qed.

(** C2.  Every session gets one category, by the priority chain
    extended, handoff, single: each step of the loop counts the session in
    that category and writes it in the map, so the map gives each session
    id the category of the last row with that id.  A row with
    [currentExtension = 2] and a parent is classified extended. *)
Theorem sessions_classified_by_priority session_stats :
  (∀ acc s,
     classify_session acc s
     = (bump (category_of s) acc.1,
        <[default "" (s_id s) := category_name (category_of s)]> acc.2)) ∧
  (∀ sid,
     (classify_sessions session_stats).2 !! sid
     = (λ s, category_name (category_of s))
         <$> last (filter (λ s, default "" (s_id s) = sid) session_stats)) ∧
  (∀ s n,
     s_extensionInfo s = Some (mk_extension (Some n)) → 1 < n →
     classify_sessions [s]
     = (mk_session_types 0 1 0, {[default "" (s_id s) := "extended"]})) ∧
  classify_sessions [extended_with_parent]
  = (mk_session_types 0 1 0, {[ "" := "extended" ]}).
Proof.
  split_and!.
  - apply classify_session_category.
  - intros sid. unfold classify_sessions. rewrite classify_map. simpl.
    by destruct (last _).
  - intros s n Hext Hn. unfold classify_sessions. cbn [foldl].
    rewrite classify_session_category. unfold category_of, more_than_one_part.
    rewrite Hext. by destruct (Z.ltb_spec 1 n); [|lia].
  - done.
Qed.

(** C3.  The classification is total and exclusive: every counter is the
    number of sessions of its category, and the three counters add up to
    the number of sessions. *)
Theorem session_counts_add_up session_stats :
  let t := (classify_sessions session_stats).1 in
  (∀ c, count_of c t
        = Z.of_nat (length (filter (λ s, category_of s = c) session_stats))) ∧
  single t + extended t + handoff t = Z.of_nat (length session_stats).
Proof.
  intros t.
  assert (Hc : ∀ c, count_of c t
        = Z.of_nat (length (filter (λ s, category_of s = c) session_stats))).
  { intros c. unfold t, classify_sessions. rewrite classify_counts. by destruct c. }
  split; [done|].
  pose proof (Hc Single) as H1. pose proof (Hc Extended) as H2.
  pose proof (Hc Handoff) as H3. simpl in H1, H2, H3. rewrite H1, H2, H3.
  clear. induction session_stats as [|s l IH]; [done|].
  rewrite !filter_cons. destruct (category_of s);
    repeat case_decide; try done; simpl length; lia.
Qed.

(** ** The errors endpoint *)

Lemma insert_desc_Permutation x l : insert_desc x l ≡ₚ x :: l.
Proof.
  induction l as [|y l IH]; simpl; [done|].
  destruct (String.ltb _ _); [|done].
  rewrite IH. apply Permutation_swap.
Qed.

Lemma sort_desc_Permutation l : sort_desc l ≡ₚ l.
Proof.
  unfold sort_desc. induction l as [|x l IH]; simpl; [done|].
  by rewrite insert_desc_Permutation, IH.
Qed.




Lemma get_errors_eq fromisoformat db now range_arg start :
  range_start now (default "day" range_arg) = Some start →
  let time_range := default "day" range_arg in
  let start_str := isoformat start +:+ "Z" in
  let all_errors :=
    flatten_errors (bugs_query db start_str) (failures_query db start_str)
                   (pair_errors_query db start_str) (cli_failures_query db start_str) in
  let session_ids : gset string :=
    list_to_set ((λ e, default "" (e_sessionId e)) <$> all_errors) in
  let session_stats := session_stats_query db start_str in
  ∃ time_series,
    build_time_series fromisoformat (sort_desc all_errors) time_range
      (Z.of_nat (size session_ids)) (Some session_stats) = Some time_series ∧
    get_errors fromisoformat db now range_arg
    = Some (mk_response
              (mk_stats (Z.of_nat (length (bugs_query db start_str)))
                        (Z.of_nat (length (failures_query db start_str)))
                        (Z.of_nat (length (pair_errors_query db start_str)))
                        (Z.of_nat (length (cli_failures_query db start_str)))
                        (Z.of_nat (size session_ids)))
              (sort_desc all_errors) time_series
              (classify_sessions session_stats).1 (classify_sessions session_stats).2).
Proof.
  intros Hstart time_range start_str all_errors session_ids session_stats.
  eexists. split; [apply build_time_series_eq|].
  subst time_range start_str all_errors session_ids session_stats.
  unfold get_errors. rewrite Hstart. cbn [mbind option_bind].
  rewrite build_time_series_eq. cbn [mbind option_bind].
  by destruct (classify_sessions _).
Qed.

(** The counters and the map of the response are those of the
    classification loop over the rows of the session query. *)
Lemma get_errors_session_types fromisoformat db now range_arg resp :
  get_errors fromisoformat db now range_arg = Some resp →
  ∃ start,
    range_start now (default "day" range_arg) = Some start ∧
    (r_sessionTypes resp, r_sessionTypeMap resp)
    = classify_sessions (session_stats_query db (isoformat start +:+ "Z")).
Proof.
  intros Hresp.
  destruct (range_start now (default "day" range_arg)) as [start|] eqn:Hstart.
  - exists start. split; [done|].
    destruct (get_errors_eq fromisoformat db now range_arg start Hstart) as (ts & _ & Heq).
    rewrite Heq in Hresp. injection Hresp as <-. simpl.
    by destruct (classify_sessions _).
  - unfold get_errors in Hresp. by rewrite Hstart in Hresp.
Qed.


(** C10.  A range selector other than [hour], [day], [week] and [month]
    is handled as [all]: the label format is [MM/DD], the query starts at
    2020-01-01, and both functions return what they return for [all]. *)
Theorem unknown_range_handled_as_all time_range :
  time_range ∉ ["hour"; "day"; "week"; "month"] →
  bucket_format time_range = "%m/%d" ∧
  (∀ dt, strftime dt (bucket_format time_range)
         = pad2 (month dt) +:+ "/" +:+ pad2 (day dt)) ∧
  (∀ now, range_start now time_range = Some (mk_datetime 2020 1 1 0 0 0 0 None)) ∧
  (∀ now start, range_start now time_range = Some start →
                isoformat start +:+ "Z" = "2020-01-01T00:00:00Z") ∧
  (∀ fromisoformat events total_sessions session_stats,
     build_time_series fromisoformat events time_range total_sessions session_stats
     = build_time_series fromisoformat events "all" total_sessions session_stats) ∧
  (∀ fromisoformat db now,
     get_errors fromisoformat db now (Some time_range)
     = get_errors fromisoformat db now (Some "all")).
Proof.
  intros Hno. rewrite !not_elem_of_cons in Hno.
  destruct Hno as (Hh & Hd & Hw & Hm & _).
  apply String.eqb_neq in Hh, Hd, Hw, Hm.
  assert (Hfmt : bucket_format time_range = "%m/%d").
  { unfold bucket_format. by rewrite Hh, Hd, Hw. }
  assert (Hstart : ∀ now,
            range_start now time_range = Some (mk_datetime 2020 1 1 0 0 0 0 None)).
  { intros now. unfold range_start. by rewrite Hh, Hd, Hw, Hm. }
  assert (Hbts : ∀ fromisoformat events total_sessions session_stats,
     build_time_series fromisoformat events time_range total_sessions session_stats
     = build_time_series fromisoformat events "all" total_sessions session_stats).
  { intros. unfold build_time_series, time_buckets. by rewrite Hfmt. }
  split_and!; try done.
  - intros dt. by rewrite Hfmt.
  - intros now start. rewrite Hstart. by intros [= <-].
  - intros fromisoformat db now. unfold get_errors.
    change (default "day" (Some time_range)) with time_range.
    change (default "day" (Some "all")) with "all".
    rewrite Hstart. change (range_start now "all")
      with (Some (mk_datetime 2020 1 1 0 0 0 0 None)).
    cbn [mbind option_bind]. by rewrite Hbts.
Qed.

(** ** The theorems on concrete inputs *)

Lemma event_counted_witness :
  "cli" ∈ event_types ∧
  count_at (time_buckets IsoFormat.iso_parse sample_events "hour" None) "10:45" "clis" = 1 ∧
  count_at (time_buckets IsoFormat.iso_parse sample_events "hour" None) "10:15" "clis" = 0 ∧
  ∃ result,
    build_time_series IsoFormat.iso_parse sample_events "hour" 2 None = Some result ∧
    NoDup (period <$> result) ∧
    "10:45" ∈ period <$> result.
Proof.
  assert (Hty : "cli" ∈ event_types) by (apply (bool_decide_unpack _); by vm_compute).
  destruct (event_counted_in_exactly_one_bucket IsoFormat.iso_parse sample_events "hour"
              2 None "cli" Hty) as (Hcount & result & Hres & Hnodup & Hin).
  split; [exact Hty|].
  split; [etrans; [exact (Hcount "10:45")|by vm_compute]|].
  split; [etrans; [exact (Hcount "10:15")|by vm_compute]|].
  exists result. split; [exact Hres|]. split; [exact Hnodup|].
  apply (Hin cli_at_1045 (mk_datetime 2024 1 1 10 45 0 0 (Some 0))).
  - right; left.
  - by vm_compute.
Defined.



Lemma unknown_range_witness :
  ("quarter" ∉ ["hour"; "day"; "week"; "month"]) ∧
  bucket_format "quarter" = "%m/%d" ∧
  range_start example_now "quarter" = Some (mk_datetime 2020 1 1 0 0 0 0 None) ∧
  build_time_series IsoFormat.iso_parse sample_events "quarter" 2 None
  = build_time_series IsoFormat.iso_parse sample_events "all" 2 None ∧
  get_errors IsoFormat.iso_parse example_store example_now (Some "quarter")
  = get_errors IsoFormat.iso_parse example_store example_now (Some "all").
Proof.
  assert (Hno : "quarter" ∉ ["hour"; "day"; "week"; "month"])
    by (apply (bool_decide_unpack _); by vm_compute).
  destruct (unknown_range_handled_as_all "quarter" Hno)
    as (Hfmt & Hlabel & Hstart & Hstr & Hbts & Hget).
  split; [exact Hno|]. split; [exact Hfmt|]. split; [apply Hstart|].
  split; [apply Hbts|apply Hget].
Defined.


Lemma sorted_by_label_witness :
  ∃ result,
    build_time_series IsoFormat.iso_parse [bug_at_1045; bug_at_1015] "hour" 2 None
    = Some result ∧
    period <$> result = ["10:15"; "10:45"] ∧
    earlier (mk_datetime 2024 1 1 10 15 0 0 (Some 0))
            (mk_datetime 2024 1 1 10 45 0 0 (Some 0)).
Proof.
  destruct (buckets_sorted_by_label IsoFormat.iso_parse [bug_at_1045; bug_at_1015] "hour"
              2 None) as (result & Hres & Hsorted & Hchron).
  assert (Hp : period <$> result = ["10:15"; "10:45"]).
  { vm_compute in Hres. injection Hres as <-. reflexivity. }
  exists result. split; [exact Hres|]. split; [exact Hp|].
  apply (Hchron _ _ 0%nat 1%nat).
  - reflexivity.
  - reflexivity.
  - split; [reflexivity|]. split; [reflexivity|]. intros _. split; reflexivity.
  - rewrite Hp. reflexivity.
  - rewrite Hp. reflexivity.
  - lia.
Defined.


Lemma two_bugs_witness :
  build_time_series IsoFormat.iso_parse [bug_at_1015; bug_at_1045] "hour" 2 None
  = Some [mk_summary "10:15" 1 0 0 1%Q 0 0 0%Q; mk_summary "10:45" 1 0 0 1%Q 0 0 0%Q].
Proof.
  apply (two_bugs_in_one_hour IsoFormat.iso_parse
           (mk_datetime 2024 1 1 10 15 0 0 (Some 0))
           (mk_datetime 2024 1 1 10 45 0 0 (Some 0)) 2 None).
  - reflexivity.
  - reflexivity.
  - reflexivity.
  - reflexivity.
  - reflexivity.
  - reflexivity.
  - left. reflexivity.
Defined.

(** * Further properties of the aggregator *)

#[local] Set Warnings "-clear-no-such-hyp".

(** ** Sessions and tokens of a bucket *)

Lemma counter_key_not_tokens e :
  counter_key e ≠ Some "tokensIn" ∧ counter_key e ≠ Some "tokensOut".
Proof.
  unfold counter_key. destruct (e_type e) as [ty|]; simpl; [|done].
  split; intros [= H].
  - do 7 (destruct ty as [|? ty]; simpl in H; [discriminate H|];
          injection H as ? H; subst).
    by destruct ty as [|? [|? ty]].
  - do 8 (destruct ty as [|? ty]; simpl in H; [discriminate H|];
          injection H as ? H; subst).
    by destruct ty as [|? [|? ty]].
Qed.

Lemma sessions_at_insert_int d k n :
  k ≠ "sessions" → sessions_at (<[k := VInt n]> d) = sessions_at d.
Proof. intros Hk. unfold sessions_at. by rewrite lookup_insert_ne. Qed.

Lemma sessions_at_insert_set d s : sessions_at (<["sessions" := VSet s]> d) = s.
Proof. unfold sessions_at. by rewrite lookup_insert_eq. Qed.

Lemma int_at_insert_set d k s :
  k ≠ "sessions" → int_at (<["sessions" := VSet s]> d) k = int_at d k.
Proof. intros Hk. unfold int_at. by rewrite lookup_insert_ne. Qed.

Lemma int_at_insert_int d k k' n :
  int_at (<[k := VInt n]> d) k' = if decide (k = k') then n else int_at d k'.
Proof. unfold int_at. rewrite lookup_insert. by case_decide. Qed.

Section Accumulation.

Variable fromisoformat : string → option datetime.
Variable fmt : string.

Lemma getitem_sessions tb key L :
  sessions_of (getitem tb key).2 L = sessions_of tb L.
Proof.
  unfold getitem, sessions_of. destruct (tb !! key) as [d|] eqn:E; simpl; [done|].
  destruct (decide (key = L)) as [->|Hne].
  - by rewrite lookup_insert_eq, E.
  - by rewrite lookup_insert_ne.
Qed.

Lemma count_error_sessions tb e L :
  buckets_ok tb →
  sessions_of (count_error fromisoformat fmt tb e) L
  = sessions_of tb L
    ∪ (if decide (registers fromisoformat fmt L e)
       then {[default "" (e_sessionId e)]} else ∅).
Proof.
  intros Hok. unfold count_error.
  destruct (bucket_key_of _ _ _) as [bk|] eqn:Ebk.
  2:{ rewrite decide_False; [set_solver|]. intros [H _]. congruence. }
  pose proof (getitem_sessions tb bk L) as Hcreate.
  destruct (getitem_ok tb bk Hok) as (Hd & Htb & Hlook & Hdef & Hother).
  destruct (getitem tb bk) as [data tb'] eqn:Eg. simpl in *.
  destruct (e_type e) as [ty|] eqn:Ety; simpl.
  2:{ rewrite Hcreate, decide_False; [set_solver|].
      unfold registers. rewrite Ety. tauto. }
  destruct (decide (ty +:+ "s" = "sessions")) as [Hs|Hs].
  { destruct Hd as ([s Hset] & _). rewrite Hs, Hset. simpl.
    rewrite Hcreate, decide_False; [set_solver|].
    unfold registers. rewrite Ety. tauto. }
  rewrite (bucket_ok_default _ _ Hd Hs).
  pose proof (bucket_ok_insert_int data (ty +:+ "s") (int_at data (ty +:+ "s") + 1) Hd Hs)
    as Hd'.
  rewrite (add_session_ok _ _ Hd'), insert_insert_eq.
  rewrite sessions_at_insert_int by done.
  rewrite <- Hcreate. unfold sessions_of.
  destruct (decide (bk = L)) as [->|Hne].
  - rewrite lookup_insert_eq, Hlook. simpl. rewrite sessions_at_insert_set.
    rewrite decide_True; [set_solver|]. unfold registers. by rewrite Ety.
  - rewrite lookup_insert_ne by done. rewrite decide_False; [set_solver|].
    intros [H _]. congruence.
Qed.

Lemma add_session_stat_obs tb s L :
  buckets_ok tb →
  let here := if decide (stat_in fromisoformat fmt L s) then 1 else 0 in
  let tb' := add_session_stat fromisoformat fmt tb s in
  count_at tb' L "tokensIn" = count_at tb L "tokensIn" + here * tokens_in_of s ∧
  count_at tb' L "tokensOut" = count_at tb L "tokensOut" + here * tokens_out_of s ∧
  count_at tb' L "totalSizeBytes"
  = count_at tb L "totalSizeBytes" + here * ((tokens_in_of s + tokens_out_of s) * 4) ∧
  sessions_of tb' L
  = sessions_of tb L
    ∪ (if decide (stat_in fromisoformat fmt L s) then {[default "" (s_id s)]} else ∅).
Proof.
  intros Hok here tb'. subst here tb'.
  destruct (decide (stat_in fromisoformat fmt L s)) as [Hst|Hst];
    unfold stat_in in Hst; unfold add_session_stat;
    destruct (bucket_key_of _ _ _) as [bk|] eqn:Ebk;
    try done; try (split_and!; [lia..|set_solver]).
  all: pose proof (getitem_sessions tb bk L) as Hcreate_s.
  all: destruct (getitem_ok tb bk Hok) as (Hd & Htb & Hlook & Hdef & Hother).
  all: destruct (getitem tb bk) as [data tb'] eqn:Eg; simpl in *.
  all: assert (Hcreate : ∀ k, count_at tb' L k = count_at tb L k)
    by (intros k; unfold count_at; destruct (decide (L = bk)) as [->|Hne];
        [rewrite Hlook, Hdef; simpl; destruct (tb !! bk); [done|];
         simpl; unfold int_at, new_bucket;
         repeat (rewrite lookup_insert; case_decide; [done|]); done
        |by rewrite Hother]).
  all: pose proof Hd as (_ & _ & Hin & Hout & Hsz).
  all: rewrite (iadd_ok _ "tokensIn" _ Hd) by done.
  all: set (d1 := <["tokensIn" := _]> data).
  all: assert (Hd1 : bucket_ok d1) by (by apply bucket_ok_insert_int).
  all: rewrite (iadd_ok _ "tokensOut" _ Hd1);
    [|done|by unfold d1; rewrite lookup_insert_ne].
  all: set (d2 := <["tokensOut" := _]> d1).
  all: assert (Hd2 : bucket_ok d2) by (by apply bucket_ok_insert_int).
  all: rewrite (iadd_ok _ "totalSizeBytes" _ Hd2);
    [|done|by unfold d2, d1; rewrite !lookup_insert_ne].
  all: set (d3 := <["totalSizeBytes" := _]> d2).
  all: assert (Hd3 : bucket_ok d3) by (by apply bucket_ok_insert_int).
  all: rewrite (add_session_ok _ _ Hd3), !insert_insert_eq.
  all: rewrite <- !Hcreate, <- Hcreate_s; unfold count_at, sessions_of.
  - injection Hst as ->. rewrite lookup_insert_eq, Hlook. simpl.
    rewrite sessions_at_insert_set, !int_at_insert_set by done.
    unfold d3, d2, d1. rewrite !sessions_at_insert_int by done.
    rewrite !int_at_insert_int. simpl.
    unfold tokens_in_of, tokens_out_of. split_and!; try lia. set_solver.
  - rewrite lookup_insert_ne by congruence.
    split_and!; try lia. set_solver.
Qed.

Lemma add_session_stat_ok tb s :
  buckets_ok tb → buckets_ok (add_session_stat fromisoformat fmt tb s).
Proof. intros Hok. by apply add_session_stat_spec. Qed.

Lemma count_errors_sessions events tb L :
  buckets_ok tb →
  sessions_of (foldl (count_error fromisoformat fmt) tb events) L
  = sessions_of tb L ∪ event_sessions fromisoformat fmt L events.
Proof.
  revert tb. unfold event_sessions.
  induction events as [|e events IH]; intros tb Hok; simpl; [set_solver|].
  destruct (count_error_spec fromisoformat fmt tb e Hok) as [Hok' _].
  rewrite (IH _ Hok'), count_error_sessions by done.
  rewrite filter_cons. case_decide; simpl; set_solver.
Qed.

Lemma add_session_stats_obs stats tb L :
  buckets_ok tb →
  let tb' := foldl (add_session_stat fromisoformat fmt) tb stats in
  let here := filter (stat_in fromisoformat fmt L) stats in
  count_at tb' L "tokensIn" = count_at tb L "tokensIn" + sumZ (tokens_in_of <$> here) ∧
  count_at tb' L "tokensOut" = count_at tb L "tokensOut" + sumZ (tokens_out_of <$> here) ∧
  count_at tb' L "totalSizeBytes"
  = count_at tb L "totalSizeBytes"
    + 4 * (sumZ (tokens_in_of <$> here) + sumZ (tokens_out_of <$> here)) ∧
  sessions_of tb' L = sessions_of tb L ∪ stat_sessions fromisoformat fmt L stats.
Proof.
  revert tb. unfold stat_sessions.
  induction stats as [|s stats IH]; intros tb Hok; simpl.
  { split_and!; try lia. set_solver. }
  destruct (add_session_stat_obs tb s L Hok) as (H1 & H2 & H3 & H4).
  destruct (IH _ (add_session_stat_ok tb s Hok)) as (I1 & I2 & I3 & I4).
  rewrite I1, I2, I3, I4, H1, H2, H3, H4. rewrite filter_cons.
  case_decide; rewrite ?fmap_cons; unfold sumZ; cbn [foldr];
    (split_and!; [lia..|set_solver]).
Qed.

End Accumulation.

Lemma time_buckets_fold fromisoformat events time_range session_stats :
  time_buckets fromisoformat events time_range session_stats
  = foldl (add_session_stat fromisoformat (bucket_format time_range))
          (foldl (count_error fromisoformat (bucket_format time_range)) ∅ events)
          (default [] session_stats).
Proof. unfold time_buckets. by destruct session_stats as [[|s rest]|]. Qed.

Lemma time_buckets_obs fromisoformat events time_range session_stats L :
  let fmt := bucket_format time_range in
  let tb := time_buckets fromisoformat events time_range session_stats in
  let here := filter (stat_in fromisoformat fmt L) (default [] session_stats) in
  count_at tb L "tokensIn" = sumZ (tokens_in_of <$> here) ∧
  count_at tb L "tokensOut" = sumZ (tokens_out_of <$> here) ∧
  count_at tb L "totalSizeBytes"
  = 4 * (sumZ (tokens_in_of <$> here) + sumZ (tokens_out_of <$> here))
    + events_in fromisoformat fmt L "totalSizeByte" events ∧
  sessions_of tb L
  = event_sessions fromisoformat fmt L events
    ∪ stat_sessions fromisoformat fmt L (default [] session_stats).
Proof.
  intros fmt tb here. subst tb here. rewrite time_buckets_fold. fold fmt.
  destruct (count_errors_spec fromisoformat fmt events ∅) as [Hok Hc];
    [apply map_Forall_empty|].
  destruct (add_session_stats_obs fromisoformat fmt (default [] session_stats) _ L Hok)
    as (H1 & H2 & H3 & H4).
  rewrite H1, H2, H3, H4.
  rewrite (Hc L "tokensIn"), (Hc L "tokensOut"), (Hc L "totalSizeBytes") by done.
  rewrite count_errors_sessions by apply map_Forall_empty.
  unfold count_at, sessions_of. rewrite lookup_empty. simpl.
  assert (Hnone : ∀ k (l : list ErrorEvent), (∀ e, counter_key e ≠ Some k) →
            filter (lands_in fromisoformat fmt L k) l = []).
  { intros k l Hk. induction l as [|e l IH]; [done|].
    rewrite filter_cons, decide_False; [done|]. intros [_ H]. by apply (Hk e). }
  rewrite (Hnone "tokensIn") by (intros e; apply counter_key_not_tokens).
  rewrite (Hnone "tokensOut") by (intros e; apply counter_key_not_tokens).
  change "totalSizeBytes" with ("totalSizeByte" +:+ "s").
  rewrite lands_in_counted_as. simpl length.
  split_and!; try lia. set_solver.
Qed.

(** The bucket behind an emitted summary, and what it has accumulated. *)
Lemma emitted_bucket fromisoformat events time_range total_sessions session_stats result r :
  build_time_series fromisoformat events time_range total_sessions session_stats
  = Some result →
  r ∈ result →
  let tb := time_buckets fromisoformat events time_range session_stats in
  ∃ d, tb !! period r = Some d ∧ r = summary_of (period r, d) ∧
       (∀ k, int_at d k = count_at tb (period r) k) ∧
       sessions_at d = sessions_of tb (period r).
Proof.
  intros Hres Hr tb.
  destruct (emitted_summary _ _ _ _ _ _ _ Hres Hr) as (d & Hd & _ & Heq).
  exists d. unfold count_at, sessions_of. fold tb in Hd. rewrite Hd. done.
Qed.

(** ** What the emitted summaries say *)

(** X1.  The [tokensIn] and [tokensOut] of an emitted bucket are the sums
    of the tokens of the session rows whose [updatedAt] has the label of
    the bucket, a missing count being 0. *)
Theorem tokens_summed_per_bucket
    fromisoformat events time_range total_sessions session_stats :
  let fmt := bucket_format time_range in
  ∃ result,
    build_time_series fromisoformat events time_range total_sessions session_stats
    = Some result ∧
    ∀ r, r ∈ result →
      let here :=
        filter (stat_in fromisoformat fmt (period r)) (default [] session_stats) in
      tokensIn r = sumZ (tokens_in_of <$> here) ∧
      tokensOut r = sumZ (tokens_out_of <$> here).
Proof.
  intros fmt. eexists. split; [apply build_time_series_eq|]. intros r Hr here.
  subst here fmt.
  destruct (emitted_bucket fromisoformat events time_range total_sessions session_stats
              _ r (build_time_series_eq _ _ _ _ _) Hr)
    as (d & Hd & Heq & Hint & Hs).
  destruct (time_buckets_obs fromisoformat events time_range session_stats (period r))
    as (H1 & H2 & _).
  rewrite <- H1, <- H2, <- !Hint. by rewrite Heq.
Qed.



(** X4.  A bucket is emitted for a label exactly when an event or a
    session row has a timestamp that formats to it, whatever the type of
    the event; the series is empty exactly when no timestamp parses. *)
Theorem buckets_exist_for_parsable_timestamps
    fromisoformat events time_range total_sessions session_stats :
  let fmt := bucket_format time_range in
  ∃ result,
    build_time_series fromisoformat events time_range total_sessions session_stats
    = Some result ∧
    (∀ L, L ∈ period <$> result ↔
          (∃ e, e ∈ events ∧ bucket_key_of fromisoformat fmt (e_timestamp e) = Some L)
          ∨ (∃ s, s ∈ default [] session_stats
                  ∧ bucket_key_of fromisoformat fmt (s_updatedAt s) = Some L)) ∧
    (result = [] ↔
       (∀ e, e ∈ events → ¬ parsable fromisoformat e) ∧
       (∀ s, s ∈ default [] session_stats →
             parse_timestamp fromisoformat (s_updatedAt s) = None)).
Proof.
  intros fmt. eexists. split; [apply build_time_series_eq|].
  assert (Hiff : ∀ L,
    L ∈ period <$> (summary_of <$>
          sorted_items (time_buckets fromisoformat events time_range session_stats)) ↔
    (∃ e, e ∈ events ∧ bucket_key_of fromisoformat fmt (e_timestamp e) = Some L)
    ∨ (∃ s, s ∈ default [] session_stats
            ∧ bucket_key_of fromisoformat fmt (s_updatedAt s) = Some L)).
  { intros L. rewrite period_summary_of, sorted_items_labels_elem.
    apply time_buckets_lookup. }
  split; [exact Hiff|].
  assert (Hkey : ∀ ts, bucket_key_of fromisoformat fmt ts = None
                       ↔ parse_timestamp fromisoformat ts = None).
  { intros ts. unfold bucket_key_of. by destruct (parse_timestamp fromisoformat ts). }
  split.
  - intros Hnil. rewrite Hnil in Hiff. split.
    + intros e He [dt Hdt].
      apply (not_elem_of_nil (strftime dt fmt)), Hiff. left. exists e.
      split; [done|]. unfold bucket_key_of. by rewrite Hdt.
    + intros s Hs.
      destruct (parse_timestamp fromisoformat (s_updatedAt s)) as [dt|] eqn:Hdt; [|done].
      exfalso. apply (not_elem_of_nil (strftime dt fmt)), Hiff. right. exists s.
      split; [done|]. unfold bucket_key_of. by rewrite Hdt.
  - intros [He Hs].
    destruct (summary_of <$> sorted_items _) as [|r l] eqn:E; [done|].
    exfalso. destruct (proj1 (Hiff (period r))) as [(e & Hin & Hk)|(s & Hin & Hk)].
    + left.
    + apply (He e Hin). unfold parsable, bucket_key_of in *.
      destruct (parse_timestamp fromisoformat (e_timestamp e)); [eauto|done].
    + specialize (Hs s Hin). apply Hkey in Hs. congruence.
Qed.

(** ** The output is a function of what the buckets accumulate *)

Lemma summary_at_obs tb L :
  summary_at tb L
  = mk_summary L (count_at tb L "bugs") (count_at tb L "failures") (count_at tb L "errors")
      (avg_per_session
         (count_at tb L "bugs" + count_at tb L "failures" + count_at tb L "errors")
         (Z.of_nat (size (sessions_of tb L))))
      (count_at tb L "tokensIn") (count_at tb L "tokensOut")
      (avg_session_size_kb (count_at tb L "totalSizeBytes")
         (Z.of_nat (size (sessions_of tb L)))).
Proof.
  unfold summary_at, summary_of, count_at, sessions_of, distinct_sessions.
  by destruct (tb !! L).
Qed.

Lemma summary_items tb :
  summary_of <$> sorted_items tb = summary_at tb <$> (sorted_items tb).*1.
Proof.
  rewrite <- list_fmap_compose. apply Forall_fmap_ext, Forall_forall.
  intros [L d] Hin. unfold sorted_items in Hin.
  rewrite merge_sort_Permutation in Hin. apply elem_of_map_to_list in Hin.
  unfold summary_at. simpl. by rewrite Hin.
Qed.

Lemma label_lt_asym a b : label_lt a b → label_lt b a → a = b.
Proof.
  rewrite !label_lt_iff. intros [H1 _] [H2 _].
  by apply (anti_symm String.le).
Qed.

Lemma labels_determined (tb1 tb2 : buckets) :
  (∀ L, is_Some (tb1 !! L) ↔ is_Some (tb2 !! L)) →
  (sorted_items tb1).*1 = (sorted_items tb2).*1.
Proof.
  intros Hdom.
  apply (StronglySorted_unique_strong label_lt).
  - intros ????. apply label_lt_asym.
  - apply sorted_items_labels.
  - apply sorted_items_labels.
  - apply NoDup_Permutation.
    + unfold sorted_items. rewrite merge_sort_Permutation. apply NoDup_fst_map_to_list.
    + unfold sorted_items. rewrite merge_sort_Permutation. apply NoDup_fst_map_to_list.
    + intros L. by rewrite !sorted_items_labels_elem.
Qed.

Lemma sumZ_Permutation l k : l ≡ₚ k → sumZ l = sumZ k.
Proof.
  unfold sumZ. induction 1 as [|x l k _ IH|x y l|l k m _ IH1 _ IH2]; simpl; lia.
Qed.

Lemma sumZ_app l k : sumZ (l ++ k) = sumZ l + sumZ k.
Proof. unfold sumZ. induction l as [|x l IH]; simpl; lia. Qed.

Lemma build_time_series_Permutation
    fromisoformat events events' time_range total_sessions total_sessions'
    session_stats session_stats' :
  events ≡ₚ events' →
  default [] session_stats ≡ₚ default [] session_stats' →
  build_time_series fromisoformat events time_range total_sessions session_stats
  = build_time_series fromisoformat events' time_range total_sessions' session_stats'.
Proof.
  intros He Hs. rewrite !build_time_series_eq, !summary_items. f_equal.
  set (tb := time_buckets fromisoformat events time_range session_stats).
  set (tb' := time_buckets fromisoformat events' time_range session_stats').
  assert (Hlabels : (sorted_items tb).*1 = (sorted_items tb').*1).
  { apply labels_determined. intros L. unfold tb, tb'.
    rewrite !time_buckets_lookup. split.
    - intros [(e & Hin & Hk)|(s & Hin & Hk)].
      + left. exists e. by rewrite <- He.
      + right. exists s. by rewrite <- Hs.
    - intros [(e & Hin & Hk)|(s & Hin & Hk)].
      + left. exists e. by rewrite He.
      + right. exists s. by rewrite Hs. }
  rewrite <- Hlabels. apply Forall_fmap_ext, Forall_forall. intros L _.
  rewrite !summary_at_obs.
  destruct (time_buckets_spec fromisoformat events time_range session_stats) as [_ Hc].
  destruct (time_buckets_spec fromisoformat events' time_range session_stats') as [_ Hc'].
  destruct (time_buckets_obs fromisoformat events time_range session_stats L)
    as (H1 & H2 & H3 & H4).
  destruct (time_buckets_obs fromisoformat events' time_range session_stats' L)
    as (H1' & H2' & H3' & H4').
  fold tb in Hc, H1, H2, H3, H4. fold tb' in Hc', H1', H2', H3', H4'.
  assert (Hres : ∀ k, k ∈ ["bugs"; "failures"; "errors"] → k ∉ reserved).
  { intros k Hk. apply (bool_decide_unpack _).
    repeat (apply elem_of_cons in Hk as [->|Hk]; [by vm_compute|]).
    by apply elem_of_nil in Hk. }
  rewrite !(Hc L), !(Hc' L) by (apply Hres; apply (bool_decide_unpack _); by vm_compute).
  rewrite H1, H2, H3, H4, H1', H2', H3', H4'.
  unfold events_in, event_sessions, stat_sessions.
  set (fmt := bucket_format time_range).
  assert (Ec : ∀ k, length (filter (lands_in fromisoformat fmt L k) events)
                    = length (filter (lands_in fromisoformat fmt L k) events'))
    by (intros k; by rewrite He).
  assert (Eb : length (filter (counted_as fromisoformat fmt L "totalSizeByte") events)
               = length (filter (counted_as fromisoformat fmt L "totalSizeByte") events'))
    by (by rewrite He).
  assert (Ein : sumZ (tokens_in_of <$> filter (stat_in fromisoformat fmt L)
                                         (default [] session_stats))
                = sumZ (tokens_in_of <$> filter (stat_in fromisoformat fmt L)
                                           (default [] session_stats')))
    by (apply sumZ_Permutation; by rewrite Hs).
  assert (Eout : sumZ (tokens_out_of <$> filter (stat_in fromisoformat fmt L)
                                           (default [] session_stats))
                 = sumZ (tokens_out_of <$> filter (stat_in fromisoformat fmt L)
                                             (default [] session_stats')))
    by (apply sumZ_Permutation; by rewrite Hs).
  assert (Ees : list_to_set ((λ e, default "" (e_sessionId e))
                               <$> filter (registers fromisoformat fmt L) events)
                =@{gset string}
                list_to_set ((λ e, default "" (e_sessionId e))
                               <$> filter (registers fromisoformat fmt L) events'))
    by (apply list_to_set_perm_L; by rewrite He).
  assert (Ess : list_to_set ((λ s, default "" (s_id s))
                               <$> filter (stat_in fromisoformat fmt L)
                                     (default [] session_stats))
                =@{gset string}
                list_to_set ((λ s, default "" (s_id s))
                               <$> filter (stat_in fromisoformat fmt L)
                                     (default [] session_stats')))
    by (apply list_to_set_perm_L; by rewrite Hs).
  by rewrite !Ec, Eb, Ein, Eout, Ees, Ess.
Qed.

(** ** Nothing is lost or counted twice across the buckets *)

Lemma sumZ_cons x l : sumZ (x :: l) = x + sumZ l.
Proof. done. Qed.

Lemma sumZ_indicator (ls : list string) (o : option string) (x : Z) :
  NoDup ls →
  sumZ ((λ L, if decide (o = Some L) then x else 0) <$> ls)
  = match o with
    | Some L0 => if decide (L0 ∈ ls) then x else 0
    | None => 0
    end.
Proof.
  induction 1 as [|L ls Hnin Hnd IH].
  { destruct o as [L0|]; [|done]. rewrite decide_False; [done|]. apply not_elem_of_nil. }
  rewrite fmap_cons, sumZ_cons, IH. destruct o as [L0|]; [|by rewrite decide_False].
  destruct (decide (Some L0 = Some L)) as [[= ->]|Hne].
  - rewrite decide_False by done. rewrite decide_True by left. lia.
  - destruct (decide (L0 ∈ ls)) as [Hin|Hnot].
    + rewrite decide_True by (by right). lia.
    + rewrite decide_False; [lia|]. intros Hin.
      apply elem_of_cons in Hin as [->|Hin]; done.
Qed.

Lemma sum_over_labels {A} (key : A → option string) (w : A → Z)
    (l : list A) (ls : list string) :
  NoDup ls →
  (∀ a L, a ∈ l → key a = Some L → L ∈ ls) →
  sumZ ((λ L, sumZ (w <$> filter (λ a, key a = Some L) l)) <$> ls)
  = sumZ (w <$> filter (λ a, is_Some (key a)) l).
Proof.
  intros Hnd. induction l as [|a l IH]; intros Hcover.
  { clear. induction ls as [|L ls IHls]; [done|].
    by rewrite fmap_cons, sumZ_cons, IHls. }
  assert (Hsplit :
    sumZ ((λ L, sumZ (w <$> filter (λ a, key a = Some L) (a :: l))) <$> ls)
    = sumZ ((λ L, if decide (key a = Some L) then w a else 0) <$> ls)
      + sumZ ((λ L, sumZ (w <$> filter (λ a, key a = Some L) l)) <$> ls)).
  { clear. induction ls as [|L ls IHls]; [done|].
    rewrite !fmap_cons, !sumZ_cons, IHls, filter_cons.
    case_decide; [rewrite fmap_cons, sumZ_cons|]; lia. }
  assert (Hcover' : ∀ a' L, a' ∈ l → key a' = Some L → L ∈ ls)
    by (intros a' L Ha' Hk; apply (Hcover a' L); [by right|done]).
  rewrite Hsplit, (IH Hcover'), sumZ_indicator by done.
  rewrite filter_cons. destruct (key a) as [L0|] eqn:Ek.
  - rewrite (decide_True (P := L0 ∈ ls)) by (eapply Hcover; [left|done]).
    rewrite (decide_True (P := is_Some (Some L0))) by eauto.
    by rewrite fmap_cons, sumZ_cons.
  - rewrite (decide_False (P := is_Some None)) by (intros [? ?]; done). lia.
Qed.

Lemma length_filter_and {A} (P Q : A → Prop)
    `{∀ a, Decision (P a)} `{∀ a, Decision (Q a)} (l : list A) :
  Z.of_nat (length (filter (λ a, Q a ∧ P a) l))
  = sumZ ((λ a, if decide (P a) then 1 else 0) <$> filter Q l).
Proof.
  induction l as [|a l IH]; [done|].
  rewrite !filter_cons. destruct (decide (Q a)); destruct (decide (P a)).
  - rewrite decide_True by done.
    rewrite fmap_cons, sumZ_cons, decide_True, <- IH by done. simpl length. lia.
  - rewrite decide_False by tauto.
    rewrite fmap_cons, sumZ_cons, decide_False, <- IH by done. lia.
  - rewrite decide_False by tauto. done.
  - rewrite decide_False by tauto. done.
Qed.

Lemma bucket_key_is_Some fromisoformat fmt ts :
  is_Some (bucket_key_of fromisoformat fmt ts)
  ↔ is_Some (parse_timestamp fromisoformat ts).
Proof.
  unfold bucket_key_of. destruct (parse_timestamp fromisoformat ts); simpl.
  - split; eauto.
  - split; intros [? ?]; done.
Qed.

Lemma counts_sum_over_labels fromisoformat fmt (events : list ErrorEvent) ls ty :
  NoDup ls →
  (∀ e L, e ∈ events → bucket_key_of fromisoformat fmt (e_timestamp e) = Some L → L ∈ ls) →
  sumZ ((λ L, Z.of_nat (length (filter (lands_in fromisoformat fmt L (ty +:+ "s")) events)))
          <$> ls)
  = Z.of_nat (length (filter (parsable_of_type fromisoformat ty) events)).
Proof.
  intros Hnd Hcover.
  set (key := λ e, bucket_key_of fromisoformat fmt (e_timestamp e)).
  set (P := λ e, counter_key e = Some (ty +:+ "s")).
  transitivity (sumZ ((λ L, sumZ ((λ e, if decide (P e) then 1 else 0)
                                    <$> filter (λ e, key e = Some L) events)) <$> ls)).
  { f_equal. apply Forall_fmap_ext, Forall_forall. intros L _.
    rewrite <- length_filter_and. do 2 f_equal. }
  rewrite (sum_over_labels key) by done.
  rewrite <- length_filter_and. do 2 f_equal. apply list_filter_iff. intros e.
  unfold parsable_of_type, parsable, P, key, counter_key.
  rewrite bucket_key_is_Some. split; intros [H1 H2]; split; try done.
  - destruct (e_type e) as [ty'|]; simplify_eq/=. f_equal. by apply app_s_inj.
  - by rewrite H2.
Qed.

(** X5.  Summed over the emitted buckets, the counts are the numbers of bug,
    failure and error events with a parsable timestamp, and the tokens are
    those of the session rows with a parsable timestamp. *)
Theorem buckets_partition_the_input
    fromisoformat events time_range total_sessions session_stats :
  ∃ result,
    build_time_series fromisoformat events time_range total_sessions session_stats
    = Some result ∧
    sumZ (bugs <$> result)
    = Z.of_nat (length (filter (parsable_of_type fromisoformat "bug") events)) ∧
    sumZ (failures <$> result)
    = Z.of_nat (length (filter (parsable_of_type fromisoformat "failure") events)) ∧
    sumZ (errors <$> result)
    = Z.of_nat (length (filter (parsable_of_type fromisoformat "error") events)) ∧
    sumZ (tokensIn <$> result)
    = sumZ (tokens_in_of <$> filter (stat_parsable fromisoformat)
                               (default [] session_stats)) ∧
    sumZ (tokensOut <$> result)
    = sumZ (tokens_out_of <$> filter (stat_parsable fromisoformat)
                                (default [] session_stats)).
Proof.
  eexists. split; [apply build_time_series_eq|].
  rewrite summary_items.
  set (tb := time_buckets fromisoformat events time_range session_stats).
  set (fmt := bucket_format time_range).
  set (ls := (sorted_items tb).*1).
  assert (Hnd : NoDup ls).
  { unfold ls, sorted_items. rewrite merge_sort_Permutation. apply NoDup_fst_map_to_list. }
  assert (Hcov_e : ∀ e L, e ∈ events →
            bucket_key_of fromisoformat fmt (e_timestamp e) = Some L → L ∈ ls).
  { intros e L He Hk. apply sorted_items_labels_elem, time_buckets_lookup. left. eauto. }
  assert (Hcov_s : ∀ s L, s ∈ default [] session_stats →
            bucket_key_of fromisoformat fmt (s_updatedAt s) = Some L → L ∈ ls).
  { intros s L Hs Hk. apply sorted_items_labels_elem, time_buckets_lookup. right. eauto. }
  destruct (time_buckets_spec fromisoformat events time_range session_stats) as [_ Hc].
  fold tb fmt in Hc.
  assert (Hcount : ∀ ty, ty +:+ "s" ∉ reserved →
            sumZ ((λ L, count_at tb L (ty +:+ "s")) <$> ls)
            = Z.of_nat (length (filter (parsable_of_type fromisoformat ty) events))).
  { intros ty Hty. rewrite <- (counts_sum_over_labels fromisoformat fmt events ls ty) by done.
    f_equal. apply Forall_fmap_ext, Forall_forall. intros L _. by apply Hc. }
  assert (Htok : ∀ (w : SessionStat → Z),
            sumZ ((λ L, sumZ (w <$> filter (stat_in fromisoformat fmt L)
                                      (default [] session_stats))) <$> ls)
            = sumZ (w <$> filter (stat_parsable fromisoformat)
                            (default [] session_stats))).
  { intros w.
    rewrite (sum_over_labels (λ s, bucket_key_of fromisoformat fmt (s_updatedAt s))) by done.
    do 2 f_equal. apply list_filter_iff. intros s. apply bucket_key_is_Some. }
  rewrite <- !list_fmap_compose.
  split_and!.
  - rewrite <- (Hcount "bug") by (apply (bool_decide_unpack _); by vm_compute).
    f_equal. apply Forall_fmap_ext, Forall_forall. intros L _. unfold compose.
    by rewrite summary_at_obs.
  - rewrite <- (Hcount "failure") by (apply (bool_decide_unpack _); by vm_compute).
    f_equal. apply Forall_fmap_ext, Forall_forall. intros L _. unfold compose.
    by rewrite summary_at_obs.
  - rewrite <- (Hcount "error") by (apply (bool_decide_unpack _); by vm_compute).
    f_equal. apply Forall_fmap_ext, Forall_forall. intros L _. unfold compose.
    by rewrite summary_at_obs.
  - rewrite <- (Htok tokens_in_of).
    f_equal. apply Forall_fmap_ext, Forall_forall. intros L _. unfold compose.
    rewrite summary_at_obs. cbn [tokensIn tokensOut].
    exact (proj1 (time_buckets_obs fromisoformat events time_range session_stats L)).
  - rewrite <- (Htok tokens_out_of).
    f_equal. apply Forall_fmap_ext, Forall_forall. intros L _. unfold compose.
    rewrite summary_at_obs. cbn [tokensIn tokensOut].
    exact (proj1 (proj2
             (time_buckets_obs fromisoformat events time_range session_stats L))).
Qed.

(** X6.  The time series does not depend on the order of the events or of the
    session rows, nor on [total_sessions], which the function never reads. *)
Theorem order_of_input_irrelevant
    fromisoformat events events' time_range total_sessions total_sessions'
    session_stats session_stats' :
  events ≡ₚ events' →
  default [] session_stats ≡ₚ default [] session_stats' →
  build_time_series fromisoformat events time_range total_sessions session_stats
  = build_time_series fromisoformat events' time_range total_sessions' session_stats'.
Proof. apply build_time_series_Permutation. Qed.

(** * Further properties of the endpoint *)

(** ** The flat list of errors *)

Lemma not_ltb_le a b : String.ltb a b = false → String.le b a.
Proof.
  intros Hlt. destruct (total String.le a b) as [Hab|Hba]; [|done].
  destruct (decide (a = b)) as [->|Hne]; [done|].
  assert (label_lt a b) as H by (by apply label_lt_iff).
  unfold label_lt in H. congruence.
Qed.

Lemma insert_desc_head x l y :
  HdRel not_before y l → not_before y x → HdRel not_before y (insert_desc x l).
Proof.
  intros Hl Hx. destruct l as [|z l]; simpl; [by constructor|].
  destruct (String.ltb _ _); constructor; [by inversion Hl|done].
Qed.

Lemma insert_desc_Sorted x l :
  Sorted not_before l → Sorted not_before (insert_desc x l).
Proof.
  induction 1 as [|y l Hs IH Hy]; simpl; [by repeat constructor|].
  destruct (String.ltb (timestamp_key x) (timestamp_key y)) eqn:Hlt.
  - constructor; [done|]. apply insert_desc_head; [done|].
    unfold not_before. apply label_lt_iff. exact Hlt.
  - constructor; [by constructor|]. constructor. by apply not_ltb_le.
Qed.

Lemma sort_desc_Sorted l : Sorted not_before (sort_desc l).
Proof.
  unfold sort_desc. induction l as [|x l IH]; simpl; [constructor|].
  by apply insert_desc_Sorted.
Qed.

Lemma insert_desc_filter t x l :
  filter (λ e, timestamp_key e = t) (insert_desc x l)
  = filter (λ e, timestamp_key e = t) (x :: l).
Proof.
  induction l as [|y l IH]; simpl; [done|].
  destruct (String.ltb (timestamp_key x) (timestamp_key y)) eqn:Hlt; [|done].
  assert (timestamp_key x ≠ timestamp_key y) as Hne.
  { assert (label_lt (timestamp_key x) (timestamp_key y)) as H by exact Hlt.
    apply label_lt_iff in H. tauto. }
  rewrite filter_cons, IH, !filter_cons.
  destruct (decide (timestamp_key y = t)); destruct (decide (timestamp_key x = t));
    try done. congruence.
Qed.

Lemma sort_desc_filter t l :
  filter (λ e, timestamp_key e = t) (sort_desc l) = filter (λ e, timestamp_key e = t) l.
Proof.
  unfold sort_desc. induction l as [|x l IH]; simpl; [done|].
  by rewrite insert_desc_filter, !filter_cons, IH.
Qed.

Lemma size_list_to_set_le (l : list string) :
  (size (list_to_set l : gset string) ≤ length l)%nat.
Proof.
  induction l as [|x l IH].
  { rewrite list_to_set_nil, size_empty. done. }
  rewrite list_to_set_cons, size_union_alt, size_singleton. simpl length.
  assert (size (list_to_set l ∖ {[x]} : gset string) ≤ size (list_to_set l : gset string))%nat
    by (apply subseteq_size; set_solver).
  lia.
Qed.

Lemma size_list_to_set_zero (l : list string) :
  size (list_to_set l : gset string) = 0%nat ↔ l = [].
Proof.
  split; [|by intros ->].
  intros Hz. apply size_empty_iff in Hz. destruct l as [|x l]; [done|].
  exfalso. assert (x ∈ (list_to_set (x :: l) : gset string)) as Hx by set_solver.
  rewrite Hz in Hx. set_solver.
Qed.

(** X7.  The flat list is sorted by timestamp, largest first, and events with
    the same timestamp stay in the order bugs, failures, pair errors, cli
    failures in which they were collected. *)
Theorem errors_sorted_descending_stable fromisoformat db now range_arg start :
  range_start now (default "day" range_arg) = Some start →
  let start_str := isoformat start +:+ "Z" in
  let all_errors :=
    flatten_errors (bugs_query db start_str) (failures_query db start_str)
                   (pair_errors_query db start_str) (cli_failures_query db start_str) in
  ∃ resp,
    get_errors fromisoformat db now range_arg = Some resp ∧
    Sorted not_before (r_errors resp) ∧
    ∀ t, filter (λ e, timestamp_key e = t) (r_errors resp)
         = filter (λ e, timestamp_key e = t) all_errors.
Proof.
  intros Hstart start_str all_errors.
  destruct (get_errors_eq fromisoformat db now range_arg start Hstart)
    as (ts & Hts & Hresp).
  eexists. split; [exact Hresp|]. simpl. split.
  - apply sort_desc_Sorted.
  - intros t. apply sort_desc_filter.
Qed.

(** X8.  [uniqueSessions] is the number of distinct session ids among all the
    rows, a missing id counting as the id [""]; it is at most the number of
    rows, and zero only when there is no row. *)
Theorem unique_sessions_counts_distinct_ids fromisoformat db now range_arg start :
  range_start now (default "day" range_arg) = Some start →
  let start_str := isoformat start +:+ "Z" in
  let all_errors :=
    flatten_errors (bugs_query db start_str) (failures_query db start_str)
                   (pair_errors_query db start_str) (cli_failures_query db start_str) in
  ∃ resp,
    get_errors fromisoformat db now range_arg = Some resp ∧
    st_uniqueSessions (r_stats resp)
    = Z.of_nat (size (list_to_set (session_id_of <$> all_errors) : gset string)) ∧
    st_uniqueSessions (r_stats resp)
    ≤ st_bugs (r_stats resp) + st_failures (r_stats resp) + st_errors (r_stats resp)
      + st_cli (r_stats resp) ∧
    (st_uniqueSessions (r_stats resp) = 0 ↔ r_errors resp = []).
Proof.
  intros Hstart start_str all_errors.
  destruct (get_errors_eq fromisoformat db now range_arg start Hstart)
    as (ts & Hts & Hresp).
  eexists. split; [exact Hresp|]. simpl. fold start_str. fold all_errors.
  change (λ e : ErrorEvent, default "" (e_sessionId e)) with session_id_of.
  split; [done|]. split.
  - pose proof (size_list_to_set_le (session_id_of <$> all_errors)) as Hle.
    rewrite length_fmap in Hle. unfold all_errors, flatten_errors in Hle |- *.
    rewrite !length_app, !length_fmap in Hle. lia.
  - change 0 with (Z.of_nat 0). rewrite Nat2Z.inj_iff, size_list_to_set_zero. split.
    + intros Hnil. apply fmap_nil_inv in Hnil.
      unfold all_errors in Hnil |- *. by rewrite Hnil.
    + intros Hnil. apply Permutation_nil_r.
      by rewrite <- (sort_desc_Permutation all_errors), Hnil.
Qed.

(** X9.  The time series of the response is the one of the events as they were
    collected: sorting the flat list first changes nothing. *)
Theorem time_series_ignores_sort fromisoformat db now range_arg start total_sessions :
  range_start now (default "day" range_arg) = Some start →
  let start_str := isoformat start +:+ "Z" in
  let all_errors :=
    flatten_errors (bugs_query db start_str) (failures_query db start_str)
                   (pair_errors_query db start_str) (cli_failures_query db start_str) in
  ∃ resp,
    get_errors fromisoformat db now range_arg = Some resp ∧
    build_time_series fromisoformat all_errors (default "day" range_arg) total_sessions
      (Some (session_stats_query db start_str))
    = Some (r_timeSeries resp).
Proof.
  intros Hstart start_str all_errors.
  destruct (get_errors_eq fromisoformat db now range_arg start Hstart)
    as (ts & Hts & Hresp).
  eexists. split; [exact Hresp|]. simpl. rewrite <- Hts.
  apply build_time_series_Permutation; [|done].
  symmetry. apply sort_desc_Permutation.
Qed.

(** ** The session map *)

Lemma classify_total stats acc :
  single (foldl classify_session acc stats).1 + extended (foldl classify_session acc stats).1
    + handoff (foldl classify_session acc stats).1
  = single acc.1 + extended acc.1 + handoff acc.1 + Z.of_nat (length stats).
Proof.
  revert acc. induction stats as [|s stats IH]; intros acc; cbn [foldl]; [simpl; lia|].
  rewrite IH, classify_session_category. destruct (category_of s); simpl; lia.
Qed.

(** X10.  The map has an entry for exactly the session ids of the rows, a missing
    id being [""]; every entry is one of the three category names, and the
    map has at most as many entries as the counters count sessions. *)
Theorem session_type_map_keys session_stats :
  let '(t, m) := classify_sessions session_stats in
  (∀ sid, is_Some (m !! sid) ↔ sid ∈ stat_id_of <$> session_stats) ∧
  (∀ sid c, m !! sid = Some c → c ∈ ["single"; "extended"; "handoff"]) ∧
  Z.of_nat (size m) ≤ single t + extended t + handoff t.
Proof.
  destruct (classify_sessions session_stats) as [t m] eqn:E.
  assert (Hm : ∀ sid, m !! sid
            = (λ s, category_name (category_of s))
                <$> last (filter (λ s, default "" (s_id s) = sid) session_stats)).
  { intros sid. change m with (t, m).2. rewrite <- E. unfold classify_sessions.
    rewrite classify_map. simpl. by destruct (last _). }
  assert (Hkeys : ∀ sid, is_Some (m !! sid) ↔ sid ∈ stat_id_of <$> session_stats).
  { intros sid. rewrite Hm, fmap_is_Some, last_is_Some. split.
    - intros Hne. destruct (filter _ session_stats) as [|s l] eqn:Ef; [done|].
      assert (s ∈ filter (λ s, default "" (s_id s) = sid) session_stats) as Hs
        by (rewrite Ef; left).
      apply list_elem_of_filter in Hs as [Hid Hs].
      apply list_elem_of_fmap. exists s. split; [by rewrite <- Hid|done].
    - intros Hin Hnil. apply list_elem_of_fmap in Hin as (s & -> & Hs).
      assert (s ∈ filter (λ s', default "" (s_id s') = stat_id_of s) session_stats) as H
        by (apply list_elem_of_filter; by split).
      rewrite Hnil in H. by apply elem_of_nil in H. }
  split_and!; [exact Hkeys| |].
  - intros sid c Hc. rewrite Hm in Hc.
    destruct (last _) as [s|]; simplify_eq/=.
    apply (bool_decide_unpack _). by destruct (category_of s).
  - assert (Hdom : dom m = list_to_set (stat_id_of <$> session_stats)).
    { apply set_eq. intros sid. by rewrite elem_of_dom, Hkeys, elem_of_list_to_set. }
    rewrite <- size_dom, Hdom.
    pose proof (size_list_to_set_le (stat_id_of <$> session_stats)) as Hle.
    rewrite length_fmap in Hle.
    assert (Ht : single t + extended t + handoff t = Z.of_nat (length session_stats)).
    { change t with (t, m).1. rewrite <- E. unfold classify_sessions.
      rewrite classify_total. simpl. lia. }
    lia.
Qed.

(** ** The queried period *)

Lemma valid_datetime_iff dt :
  valid_datetime dt = true ↔
  1 <= year dt <= 9999 ∧ 1 <= month dt <= 12 ∧
  1 <= day dt <= days_in_month (year dt) (month dt) ∧
  0 <= hour dt <= 23 ∧ 0 <= minute dt <= 59 ∧ 0 <= second dt <= 59 ∧
  0 <= microsecond dt <= 999999.
Proof. unfold valid_datetime. rewrite !andb_true_iff, !Z.leb_le. tauto. Qed.

Lemma days_in_month_bounds y m : 28 <= days_in_month y m <= 31.
Proof. unfold days_in_month. repeat case_match; lia. Qed.

Lemma days_before_next_month y m :
  1 <= m < 12 → days_before_month y m + days_in_month y m = days_before_month y (m + 1).
Proof.
  intros Hm.
  assert (E : m = 1 ∨ m = 2 ∨ m = 3 ∨ m = 4 ∨ m = 5 ∨ m = 6 ∨ m = 7 ∨ m = 8
              ∨ m = 9 ∨ m = 10 ∨ m = 11) by lia.
  unfold days_before_month, days_in_month.
  repeat destruct E as [->|E]; try subst m; simpl; destruct (is_leap y); simpl; lia.
Qed.

Lemma days_before_next_year y :
  days_before_year (y + 1) = days_before_year y + 365 + (if is_leap y then 1 else 0).
Proof.
  unfold days_before_year, is_leap. replace (y + 1 - 1) with y by lia.
  destruct (Z.eqb_spec (y mod 4) 0); destruct (Z.eqb_spec (y mod 100) 0);
    destruct (Z.eqb_spec (y mod 400) 0); simpl;
    Z.to_euclidean_division_equations; lia.
Qed.

Lemma prev_day_spec dt :
  valid_datetime dt = true →
  match prev_day dt with
  | Some dt' =>
      valid_datetime dt' = true ∧ toordinal dt' = toordinal dt - 1 ∧
      hour dt' = hour dt ∧ minute dt' = minute dt ∧ second dt' = second dt ∧
      microsecond dt' = microsecond dt ∧ utcoffset dt' = utcoffset dt
  | None => toordinal dt = 1
  end.
Proof.
  intros Hv. apply valid_datetime_iff in Hv.
  destruct Hv as (Hy & Hm & Hd & Hh & Hmi & Hs & Hus).
  unfold prev_day.
  destruct (Z.ltb_spec 1 (day dt)) as [Hday|Hday].
  { split; [apply valid_datetime_iff; simpl; lia|]. unfold toordinal. simpl. split_and!; try done; lia. }
  destruct (Z.ltb_spec 1 (month dt)) as [Hmon|Hmon].
  { pose proof (days_in_month_bounds (year dt) (month dt - 1)) as Hb.
    pose proof (days_before_next_month (year dt) (month dt - 1) ltac:(lia)) as Hn.
    replace (month dt - 1 + 1) with (month dt) in Hn by lia.
    split; [apply valid_datetime_iff; simpl; lia|]. unfold toordinal. simpl. split_and!; try done; lia. }
  assert (day dt = 1) as Ed by lia. assert (month dt = 1) as Em by lia.
  destruct (Z.ltb_spec 1 (year dt)) as [Hyear|Hyear].
  { pose proof (days_before_next_year (year dt - 1)) as Hn.
    replace (year dt - 1 + 1) with (year dt) in Hn by lia.
    split; [apply valid_datetime_iff; simpl; unfold days_in_month; simpl; lia|].
    unfold toordinal. simpl. rewrite Ed, Em, Hn.
    unfold days_before_month. simpl.
    destruct (is_leap (year dt - 1)); simpl; split_and!; try done; lia. }
  assert (year dt = 1) as Ey by lia.
  unfold toordinal. rewrite Ed, Em, Ey. reflexivity.
Qed.

Lemma toordinal_pos dt : valid_datetime dt = true → 1 <= toordinal dt.
Proof.
  intros Hv. apply valid_datetime_iff in Hv.
  destruct Hv as (Hy & Hm & Hd & _).
  unfold toordinal, days_before_year, days_before_month.
  assert (0 <= nth (Z.to_nat (month dt))
                   [0; 0; 31; 59; 90; 120; 151; 181; 212; 243; 273; 304; 334] 0).
  { assert (E : month dt = 1 ∨ month dt = 2 ∨ month dt = 3 ∨ month dt = 4 ∨ month dt = 5
                ∨ month dt = 6 ∨ month dt = 7 ∨ month dt = 8 ∨ month dt = 9
                ∨ month dt = 10 ∨ month dt = 11 ∨ month dt = 12) by lia.
    repeat destruct E as [->|E]; try rewrite E; simpl; lia. }
  destruct ((2 <? month dt) && is_leap (year dt)); cbv zeta in *;
    Z.to_euclidean_division_equations; lia.
Qed.

Lemma toordinal_second_year dt :
  valid_datetime dt = true → 2 <= year dt → 366 <= toordinal dt.
Proof.
  intros Hv Hy. pose proof (toordinal_pos dt Hv) as Hpos.
  apply valid_datetime_iff in Hv. destruct Hv as (_ & Hm & Hd & _).
  unfold toordinal, days_before_year, days_before_month in *.
  assert (0 <= nth (Z.to_nat (month dt))
                   [0; 0; 31; 59; 90; 120; 151; 181; 212; 243; 273; 304; 334] 0).
  { assert (E : month dt = 1 ∨ month dt = 2 ∨ month dt = 3 ∨ month dt = 4 ∨ month dt = 5
                ∨ month dt = 6 ∨ month dt = 7 ∨ month dt = 8 ∨ month dt = 9
                ∨ month dt = 10 ∨ month dt = 11 ∨ month dt = 12) by lia.
    repeat destruct E as [->|E]; try rewrite E; simpl; lia. }
  destruct ((2 <? month dt) && is_leap (year dt)); cbv zeta in *;
    Z.to_euclidean_division_equations; lia.
Qed.

Lemma sub_days_spec n dt :
  valid_datetime dt = true → Z.of_nat n < toordinal dt →
  ∃ dt', sub_days dt n = Some dt' ∧ valid_datetime dt' = true ∧
         utcoffset dt' = utcoffset dt ∧
         instant dt - instant dt' = Z.of_nat n * 86400 * 1000000.
Proof.
  revert dt. induction n as [|n IH]; intros dt Hv Hord; simpl.
  { exists dt. split_and!; try done. lia. }
  pose proof (prev_day_spec dt Hv) as Hp.
  destruct (prev_day dt) as [d1|]; [|lia].
  destruct Hp as (Hv1 & Ho1 & Hh & Hm & Hs & Hus & Hoff). simpl.
  destruct (IH d1 Hv1 ltac:(lia)) as (dt' & Heq & Hv' & Hoff' & Hinst).
  exists dt'. split_and!; try done; [congruence|].
  unfold instant in *. rewrite Hoff in Hinst. rewrite Ho1, Hh, Hm, Hs, Hus in Hinst. lia.
Qed.

Lemma sub_hour_spec dt :
  valid_datetime dt = true → 1 < toordinal dt →
  ∃ dt', sub_hour dt = Some dt' ∧ valid_datetime dt' = true ∧
         utcoffset dt' = utcoffset dt ∧
         instant dt - instant dt' = 3600 * 1000000.
Proof.
  intros Hv Hord. unfold sub_hour.
  pose proof (proj1 (valid_datetime_iff dt) Hv) as (Hy & Hm & Hd & Hh & Hmi & Hs & Hus).
  destruct (Z.leb_spec 1 (hour dt)) as [Hhour|Hhour].
  { eexists. split; [done|]. split_and!; [apply valid_datetime_iff; simpl; lia|done|].
    unfold instant, toordinal. simpl. lia. }
  pose proof (prev_day_spec dt Hv) as Hp.
  destruct (prev_day dt) as [d1|]; [|lia].
  destruct Hp as (Hv1 & Ho1 & _). simpl.
  pose proof (proj1 (valid_datetime_iff d1) Hv1) as (Hy1 & Hm1 & Hd1 & _).
  eexists. split; [done|]. split_and!; [apply valid_datetime_iff; simpl; lia|done|].
  unfold instant, toordinal in *. simpl. lia.
Qed.

(** X11.  For the four named ranges, from the second year of the calendar on, the
    query starts exactly one hour, one day, seven days or thirty days
    before [now]. *)
Theorem query_window_exact now time_range :
  valid_datetime now = true → 2 <= year now →
  time_range ∈ ["hour"; "day"; "week"; "month"] →
  ∃ start,
    range_start now time_range = Some start ∧
    valid_datetime start = true ∧
    utcoffset start = utcoffset now ∧
    instant now - instant start = window_of time_range.
Proof.
  intros Hv Hy Hr. pose proof (toordinal_second_year now Hv Hy) as Hord.
  unfold range_start, window_of.
  repeat (apply elem_of_cons in Hr as [->|Hr]); [..|by apply elem_of_nil in Hr];
    cbn [String.eqb Ascii.eqb Bool.eqb].
  - apply sub_hour_spec; [done|lia].
  - destruct (sub_days_spec 1 now Hv ltac:(lia)) as (s & ? & ? & ? & ?).
    exists s. split_and!; try done; lia.
  - destruct (sub_days_spec 7 now Hv ltac:(lia)) as (s & ? & ? & ? & ?).
    exists s. split_and!; try done; lia.
  - destruct (sub_days_spec 30 now Hv ltac:(lia)) as (s & ? & ? & ? & ?).
    exists s. split_and!; try done; lia.
Qed.

(** X12.  The dashboard of an empty store: when the five queries return no row,
    the response has zero counts, no error, no bucket and no session, and
    the handler raises nothing. *)
Theorem empty_store_renders_zero fromisoformat db now range_arg start :
  range_start now (default "day" range_arg) = Some start →
  let start_str := isoformat start +:+ "Z" in
  bugs_query db start_str = [] → failures_query db start_str = [] →
  pair_errors_query db start_str = [] → cli_failures_query db start_str = [] →
  session_stats_query db start_str = [] →
  get_errors fromisoformat db now range_arg
  = Some (mk_response (mk_stats 0 0 0 0 0) [] [] (mk_session_types 0 0 0) ∅).
Proof.
  intros Hstart start_str Hb Hf Hp Hc Hs.
  destruct (get_errors_eq fromisoformat db now range_arg start Hstart)
    as (ts & Hts & Hresp).
  fold start_str in Hts, Hresp. rewrite Hb, Hf, Hp, Hc, Hs in Hts, Hresp.
  rewrite Hresp. assert (ts = []) as -> by (by injection Hts as <-). done.
Qed.

(** * Properties of the upstream query *)

Lemma dollar_not_statement k : "$" +:+ k ≠ "statement".
Proof. done. Qed.

Lemma payload_fold (l : list (string * json)) (p : gmap string json) :
  let p' := foldl (λ payload kv, <["$" +:+ kv.1 := kv.2]> payload) p l in
  p' !! "statement" = p !! "statement" ∧
  (∀ k, p' !! ("$" +:+ k)
        = match obj_get k l with Some v => Some v | None => p !! ("$" +:+ k) end) ∧
  (∀ key, is_Some (p' !! key) →
          is_Some (p !! key) ∨ ∃ k, key = "$" +:+ k ∧ k ∈ l.*1).
Proof.
  revert p. induction l as [|[k' v] l IH]; intros p; cbn [foldl fst snd].
  { split_and!; try done. intros key H. by left. }
  destruct (IH (<["$" +:+ k' := v]> p)) as (H1 & H2 & H3). cbv zeta.
  split_and!.
  - rewrite H1. by rewrite lookup_insert_ne.
  - intros k. rewrite H2. cbn [obj_get]. destruct (obj_get k l); [done|].
    simpl. destruct (decide (k' = k)) as [->|Hne].
    + by rewrite lookup_insert_eq.
    + rewrite lookup_insert_ne; [done|]. intros [= ?]. done.
  - intros key Hkey. destruct (H3 key Hkey) as [Hin|(k & -> & Hk)].
    + rewrite lookup_insert_is_Some in Hin. destruct Hin as [<-|[_ Hin]]; [|by left].
      right. exists k'. split; [done|]. simpl. left.
    + right. exists k. split; [done|]. simpl. by right.
Qed.

(** X13.  The request body always carries the statement under [statement]; a
    parameter [k] is sent under [$k] and nowhere else, so no parameter can
    replace the statement. *)
Theorem payload_keeps_statement n1ql params :
  let payload := build_payload n1ql params in
  payload !! "statement" = Some (JStr n1ql) ∧
  (∀ k, payload !! ("$" +:+ k) = obj_get k (default [] params)) ∧
  (∀ key, is_Some (payload !! key) →
          key = "statement" ∨ ∃ k, key = "$" +:+ k ∧ k ∈ (default [] params).*1).
Proof.
  intros payload.
  assert (Hfold : payload
            = foldl (λ payload kv, <["$" +:+ kv.1 := kv.2]> payload)
                    {[ "statement" := JStr n1ql ]} (default [] params)).
  { unfold payload, build_payload. by destruct params as [[|kv rest]|]. }
  destruct (payload_fold (default [] params) {[ "statement" := JStr n1ql ]})
    as (H1 & H2 & H3). cbn zeta in *. rewrite <- Hfold in H1, H2, H3.
  split_and!.
  - by rewrite H1, lookup_singleton_eq.
  - intros k. rewrite H2. destruct (obj_get k (default [] params)); [done|].
    by rewrite lookup_singleton_ne.
  - intros key Hkey. destruct (H3 key Hkey) as [Hin|?]; [|by right].
    left. apply lookup_singleton_is_Some in Hin. done.
Qed.

Lemma query_couchbase_no_rows post n1ql params :
  no_rows (post (build_payload n1ql params)) →
  query_couchbase post n1ql params = JArr [].
Proof.
  unfold query_couchbase, no_rows, raise_for_status.
  destruct (post _) as [|status body]; [done|].
  intros [->|Hbody]; [done|].
  destruct ((400 <=? status) && (status <? 600)); [done|].
  destruct body as [[| | | | |fields]|]; try done. by rewrite Hbody.
Qed.

(** X14.  [query_couchbase] never raises: it returns the empty list when the call
    fails, when the status is 4xx or 5xx, when the body is not a JSON
    object and when the object has no [results]; otherwise it returns the
    value under [results]. *)
Theorem query_degrades_to_no_rows post n1ql params :
  (no_rows (post (build_payload n1ql params)) →
   query_couchbase post n1ql params = JArr []) ∧
  (∀ rows, query_couchbase post n1ql params = rows → rows ≠ JArr [] →
     ∃ status fields,
       post (build_payload n1ql params) = Replied status (Some (JObj fields)) ∧
       (status < 400 ∨ 600 <= status) ∧
       obj_get "results" fields = Some rows).
Proof.
  split; [apply query_couchbase_no_rows|].
  unfold query_couchbase, raise_for_status.
  intros rows Hrows Hne. destruct (post _) as [|status body]; [congruence|].
  destruct (Z.leb_spec 400 status); destruct (Z.ltb_spec status 600);
    simpl in Hrows; try congruence;
    (destruct body as [[| | | | |fields]|]; try congruence;
     destruct (obj_get "results" fields) as [v|] eqn:Hget; simpl in Hrows;
     [|congruence]; exists status, fields; split_and!; [done|lia|congruence]).
Qed.

(** X15.  The session lookup answers 404 with the error object whenever the
    upstream gives no rows, and 200 with the first row when it gives a
    non-empty list. *)
Theorem session_lookup_answers post bucket session_id :
  let outcome := post (build_payload (session_query bucket session_id) None) in
  (no_rows outcome → get_session post bucket session_id = Some (not_found, 404)) ∧
  (∀ status fields row rest,
     outcome = Replied status (Some (JObj fields)) →
     raise_for_status status = false →
     obj_get "results" fields = Some (JArr (row :: rest)) →
     get_session post bucket session_id = Some (row, 200)).
Proof.
  intros outcome. split.
  - intros Hno. unfold get_session.
    by rewrite (query_couchbase_no_rows post _ None Hno).
  - intros status fields row rest Hout Hst Hget.
    unfold get_session, query_couchbase. fold outcome. by rewrite Hout, Hst, Hget.
Qed.

(** * Properties of [escapeHtml] *)

Lemma string_app_assoc (a b c : string) : (a +:+ b) +:+ c = a +:+ (b +:+ c).
Proof.
  induction a as [|x a IH]; [done|].
  change (String x ((a +:+ b) +:+ c) = String x (a +:+ b +:+ c)). by rewrite IH.
Qed.

Lemma replace_app c new a b :
  replace c new (a +:+ b) = replace c new a +:+ replace c new b.
Proof.
  induction a as [|x a IH]; [done|].
  change (String x a +:+ b) with (String x (a +:+ b)). cbn [replace].
  destruct (Ascii.eqb x c); rewrite IH; [|done].
  by rewrite string_app_assoc.
Qed.

Lemma escape_char_replace c :
  replace ">" "&gt;" (replace "<" "&lt;" (replace "&" "&amp;" (String c "")))
  = escape_char c.
Proof.
  unfold escape_char. cbn [replace].
  destruct (Ascii.eqb_spec c "&") as [->|Hamp]; [done|].
  cbn [replace append].
  destruct (Ascii.eqb_spec c "<") as [->|Hlt]; [done|].
  cbn [replace append].
  by destruct (Ascii.eqb_spec c ">") as [->|Hgt].
Qed.

Lemma escapeHtml_each s : escapeHtml (Some s) = escape_each s.
Proof.
  destruct s as [|c s]; [done|]. unfold escapeHtml.
  generalize (String c s). clear. intros s.
  induction s as [|c s IH]; [done|].
  change (String c s) with (String c "" +:+ s).
  rewrite !replace_app, IH, escape_char_replace. done.
Qed.

Lemma escape_each_app a b : escape_each (a +:+ b) = escape_each a +:+ escape_each b.
Proof.
  induction a as [|x a IH]; [done|].
  change (String x a +:+ b) with (String x (a +:+ b)). cbn [escape_each].
  by rewrite IH, string_app_assoc.
Qed.

Lemma escape_char_cases c :
  (c = "&"%char ∧ escape_char c = "&amp;") ∨
  (c = "<"%char ∧ escape_char c = "&lt;") ∨
  (c = ">"%char ∧ escape_char c = "&gt;") ∨
  (c ≠ "&"%char ∧ c ≠ "<"%char ∧ c ≠ ">"%char ∧ escape_char c = String c "").
Proof.
  unfold escape_char.
  destruct (Ascii.eqb_spec c "&") as [->|?]; [by left|].
  destruct (Ascii.eqb_spec c "<") as [->|?]; [by right; left|].
  destruct (Ascii.eqb_spec c ">") as [->|?]; [by right; right; left|].
  by right; right; right.
Qed.

Lemma escape_each_inj s s' : escape_each s = escape_each s' → s = s'.
Proof.
  revert s'. induction s as [|c s IH]; intros [|c' s'] H.
  - done.
  - cbn [escape_each] in H. destruct (escape_char_cases c') as [[_ E]|[[_ E]|[[_ E]|(_&_&_&E)]]];
      rewrite E in H; discriminate.
  - cbn [escape_each] in H. destruct (escape_char_cases c) as [[_ E]|[[_ E]|[[_ E]|(_&_&_&E)]]];
      rewrite E in H; discriminate.
  - cbn [escape_each] in H.
    destruct (escape_char_cases c) as [[-> E]|[[-> E]|[[-> E]|(?&?&?&E)]]];
    destruct (escape_char_cases c') as [[-> E']|[[-> E']|[[-> E']|(?&?&?&E')]]];
      rewrite ?E, ?E' in H; simpl in H; simplify_eq; f_equal; by apply IH.
Qed.




(** X17.  Escaping loses nothing and works piece by piece: two different
    strings have different escaped texts, the escaped text of a
    concatenation is the concatenation of the escaped texts, and a string
    without [&], [<] and [>] is left as it is. *)
Theorem escapeHtml_lossless s s' :
  (escapeHtml (Some s) = escapeHtml (Some s') → s = s') ∧
  escapeHtml (Some (s +:+ s')) = escapeHtml (Some s) +:+ escapeHtml (Some s') ∧
  ((∀ c, c ∈ list_ascii_of_string s → c ≠ "&"%char ∧ c ≠ "<"%char ∧ c ≠ ">"%char) →
   escapeHtml (Some s) = s).
Proof.
  rewrite !escapeHtml_each. split_and!.
  - apply escape_each_inj.
  - apply escape_each_app.
  - induction s as [|c s IH]; [done|]. intros Hc. cbn [escape_each].
    destruct (escape_char_cases c) as [[-> E]|[[-> E]|[[-> E]|(?&?&?&E)]]].
    + destruct (Hc "&"%char) as (? & _); [left|done].
    + destruct (Hc "<"%char) as (_ & ? & _); [left|done].
    + destruct (Hc ">"%char) as (_ & _ & ?); [left|done].
    + rewrite E. simpl. f_equal. apply IH. intros c' Hc'. apply Hc. simpl. by right.
Qed.

(** * Properties of the rollback script *)

Lemma rollback_apply_change doc func_name new_code history :
  let st := apply_change doc func_name new_code history in
  rollback st.1 st.2 = (doc, history).
Proof.
  unfold apply_change, save_state, rollback. simpl.
  by rewrite last_snoc, removelast_last.
Qed.

Lemma rollbacks_succ_r k st : rollbacks (S k) st = rollbacks k (rollback st.1 st.2).
Proof. unfold rollbacks. by rewrite Nat.iter_succ_r. Qed.

Lemma apply_changes_snoc inputs input st :
  apply_changes (inputs ++ [input]) st
  = apply_change (apply_changes inputs st).1 input.1 input.2 (apply_changes inputs st).2.
Proof. unfold apply_changes. by rewrite foldl_snoc. Qed.

Lemma rollbacks_take inputs k st :
  (k ≤ length inputs)%nat →
  rollbacks k (apply_changes inputs st)
  = apply_changes (take (length inputs - k) inputs) st.
Proof.
  revert k. induction inputs as [|input inputs IH] using rev_ind; intros k Hk.
  { simpl in Hk. by replace k with 0%nat by lia. }
  destruct k as [|k].
  { by rewrite Nat.sub_0_r, firstn_all. }
  rewrite length_app in Hk |- *. change (length [input]) with 1%nat in Hk |- *.
  rewrite rollbacks_succ_r, apply_changes_snoc, rollback_apply_change.
  rewrite <- surjective_pairing. rewrite IH by lia. f_equal.
  replace (length inputs + 1 - S k)%nat with (length inputs - k)%nat by lia.
  by rewrite take_app_le by lia.
Qed.

Lemma rollbacks_empty k doc : rollbacks k (doc, []) = (doc, []).
Proof. induction k as [|k IH]; [done|]. by rewrite rollbacks_succ_r. Qed.

(** X18.  Rolling back [k] times after a series of changes gives the state
    reached before the last [k] changes, both the document and the history;
    with as many rollbacks as changes, the state before the first one. *)
Theorem rollbacks_undo_latest_changes inputs k doc history :
  (k ≤ length inputs)%nat →
  rollbacks k (apply_changes inputs (doc, history))
  = apply_changes (take (length inputs - k) inputs) (doc, history) ∧
  rollbacks (length inputs) (apply_changes inputs (doc, history)) = (doc, history).
Proof.
  intros Hk. split; [by apply rollbacks_take|].
  rewrite rollbacks_take by done. by rewrite Nat.sub_diag.
Qed.

(** X19.  The script reports success for every original document and every
    list of changes, whatever the digest, when it rolls back at least as
    many times as it changed the document: a rollback on the empty history
    returns the document it was given. *)
Theorem test_script_succeeds md5_of_items original inputs n :
  (length inputs ≤ n)%nat →
  run_test md5_of_items original inputs n = true ∧
  rollbacks n (apply_changes inputs (original, [])) = (original, []).
Proof.
  intros Hn.
  assert (Hback : rollbacks n (apply_changes inputs (original, [])) = (original, [])).
  { replace n with ((n - length inputs) + length inputs)%nat by lia.
    unfold rollbacks. rewrite Nat.iter_add. fold (rollbacks (length inputs)).
    fold (rollbacks (length inputs) (apply_changes inputs (original, []))).
    rewrite rollbacks_take by done. rewrite Nat.sub_diag. simpl.
    apply rollbacks_empty. }
  split; [|done]. unfold run_test. rewrite Hback. by apply bool_decide_eq_true.
Qed.

(** * Properties of the functions of the handoff script *)

Lemma find_max_fold rest first :
  let m := foldl (λ max_val num, if num >? max_val then num else max_val) first rest in
  (m = first ∨ m ∈ rest) ∧ first ≤ m ∧ ∀ x, x ∈ rest → x ≤ m.
Proof.
  revert first. induction rest as [|y rest IH]; intros first; cbn [foldl].
  { split_and!; [by left|lia|]. by intros x ?%elem_of_nil. }
  cbv zeta in IH |- *.
  destruct (IH (if y >? first then y else first)) as (Hin & Hle & Hall).
  destruct (Z.gtb_spec y first) as [Hgt|Hgt].
  - split_and!.
    + right. destruct Hin as [->|Hin]; [left|by right].
    + lia.
    + intros x [->|Hx]%elem_of_cons; [lia|by apply Hall].
  - split_and!.
    + destruct Hin as [->|Hin]; [by left|]. right. by right.
    + lia.
    + intros x [->|Hx]%elem_of_cons; [lia|by apply Hall].
Qed.

(** X20.  [find_max] returns [None] exactly on the empty list; otherwise it
    returns an element of the list that no element exceeds. *)
Theorem find_max_is_maximum numbers :
  (find_max numbers = None ↔ numbers = []) ∧
  (∀ m, find_max numbers = Some m → m ∈ numbers ∧ ∀ x, x ∈ numbers → x ≤ m).
Proof.
  destruct numbers as [|first rest]; simpl.
  { split; [done|]. by intros m [=]. }
  split; [by split|]. intros m [= <-].
  destruct (find_max_fold rest first) as (Hin & Hle & Hall). cbv zeta in *. split.
  - destruct Hin as [->|Hin]; [left|by right].
  - intros x [->|Hx]%elem_of_cons; [lia|by apply Hall].
Qed.

Lemma no_divisor_upto n bound :
  forallb (λ i, negb (n mod i =? 0)) (seqZ 2 (bound + 1 - 2)) = true ↔
  ∀ i, 2 ≤ i ≤ bound → ¬ (i | n).
Proof.
  rewrite forallb_forall. split.
  - intros H i Hi Hdiv. specialize (H i). rewrite <- list_elem_of_In in H.
    rewrite elem_of_seqZ in H. specialize (H ltac:(lia)).
    apply Z.mod0_divide in Hdiv. rewrite Hdiv in H. done.
  - intros H i Hi. rewrite <- list_elem_of_In, elem_of_seqZ in Hi.
    apply negb_true_iff, Z.eqb_neq. intros Hmod.
    apply (H i); [lia|]. apply Z.mod_divide; [lia|done].
Qed.

(** X21.  [is_prime] answers [False] below 2; from 2 on, when the square
    root it computes is at least the integer square root and less than
    [n], it answers [True] exactly for the prime numbers.  Below 2 the
    square root is not computed. *)
Theorem is_prime_decides_primality isqrt n :
  (2 ≤ n → ∃ bound, isqrt n = Some bound ∧ Z.sqrt n ≤ bound < n) →
  ∃ answer, is_prime isqrt n = Some answer ∧ (answer = true ↔ Z.prime n).
Proof.
  intros Hbound. unfold is_prime.
  destruct (Z.ltb_spec n 2) as [Hn|Hn].
  { exists false. split; [done|]. split; [done|]. intros [? _]. lia. }
  destruct (Hbound Hn) as (bound & Hsqrt & Hle). clear Hbound. rename Hle into Hbound.
  rewrite Hsqrt. simpl. eexists. split; [done|].
  rewrite no_divisor_upto. unfold Z.prime. split.
  - intros H. split; [lia|]. intros k Hk [q Hq].
    pose proof (Z.sqrt_spec n ltac:(lia)) as Hs.
    assert (0 < q) by nia. assert (1 < q) by nia.
    assert (q * 2 <= q * k) by (apply Z.mul_le_mono_nonneg_l; lia).
    assert (q < n) by lia.
    destruct (Z.le_gt_cases k q).
    + apply (H k); [|by exists q]. split; [lia|].
      assert (k * k <= k * q) by (apply Z.mul_le_mono_nonneg_l; lia).
      assert (k <= Z.sqrt n) by (apply Z.sqrt_le_square; lia). lia.
    + apply (H q); [|exists k; lia]. split; [lia|].
      assert (q * q <= q * k) by (apply Z.mul_le_mono_nonneg_l; lia).
      assert (q <= Z.sqrt n) by (apply Z.sqrt_le_square; lia). lia.
  - intros [_ H] i Hi. apply H. lia.
Qed.

(** X22.  [factorial] returns 1 for every [n] up to 1, negative numbers
    included, and [n!] for a larger [n] when the recursion limit leaves it
    [n] frames; with fewer frames it raises [RecursionError]. *)
Theorem factorial_within_recursion_limit depth n :
  factorial depth n
  = if decide (depth = 0%nat) then None
    else if decide (n ≤ 1) then Some 1
    else if decide (n ≤ Z.of_nat depth) then Some (Z.of_nat (fact (Z.to_nat n)))
    else None.
Proof.
  revert n. induction depth as [|depth IH]; intros n; [done|].
  cbn [factorial]. rewrite decide_False by done.
  destruct (Z.leb_spec n 1) as [Hn|Hn].
  { by rewrite decide_True. }
  rewrite (decide_False (P := n ≤ 1)) by lia. rewrite IH.
  destruct (decide (depth = 0%nat)) as [->|Hd].
  { simpl. by rewrite decide_False by lia. }
  destruct (decide (n - 1 ≤ 1)) as [H1|H1].
  { assert (n = 2) as -> by lia. simpl. by rewrite decide_True by lia. }
  destruct (decide (n - 1 ≤ Z.of_nat depth)) as [H2|H2]; simpl.
  - rewrite decide_True by lia. f_equal.
    replace (Z.to_nat n) with (S (Z.to_nat (n - 1))) by lia.
    cbn [fact]. rewrite Nat2Z.inj_mul. lia.
  - by rewrite decide_False by lia.
Qed.

(** * The further properties on examples *)

Lemma order_irrelevant_witness :
  [bug_at_1015; cli_at_1045] ≡ₚ [cli_at_1045; bug_at_1015] ∧
  default [] (@None (list SessionStat)) ≡ₚ default [] (Some []) ∧
  build_time_series IsoFormat.iso_parse [bug_at_1015; cli_at_1045] "hour" 2 None
  = build_time_series IsoFormat.iso_parse [cli_at_1045; bug_at_1015] "hour" 7 (Some []).
Proof.
  assert (H1 : [bug_at_1015; cli_at_1045] ≡ₚ [cli_at_1045; bug_at_1015])
    by apply perm_swap.
  assert (H2 : default [] (@None (list SessionStat)) ≡ₚ default [] (Some []))
    by reflexivity.
  split; [exact H1|]. split; [exact H2|].
  exact (order_of_input_irrelevant IsoFormat.iso_parse _ _ "hour" 2 7 None (Some [])
           H1 H2).
Defined.

Lemma errors_sorted_witness :
  range_start example_now (default "day" (Some "day"))
  = Some (mk_datetime 2024 1 1 9 30 0 0 None) ∧
  ∃ resp,
    get_errors IsoFormat.iso_parse example_store example_now (Some "day") = Some resp ∧
    Sorted not_before (r_errors resp) ∧
    timestamp_key <$> r_errors resp = ["not-a-date"; "2024-01-01T10:15:00Z"; ""].
Proof.
  assert (Hstart : range_start example_now (default "day" (Some "day"))
                   = Some (mk_datetime 2024 1 1 9 30 0 0 None)) by by vm_compute.
  destruct (errors_sorted_descending_stable IsoFormat.iso_parse example_store
              example_now (Some "day") _ Hstart)
    as (resp & Hresp & Hsorted & Hstable).
  split; [exact Hstart|]. exists resp. split; [exact Hresp|]. split; [exact Hsorted|].
  vm_compute in Hresp. injection Hresp as <-. by vm_compute.
Defined.

Lemma unique_sessions_witness :
  range_start example_now (default "day" (Some "day"))
  = Some (mk_datetime 2024 1 1 9 30 0 0 None) ∧
  ∃ resp,
    get_errors IsoFormat.iso_parse example_store example_now (Some "day") = Some resp ∧
    st_uniqueSessions (r_stats resp) = 2 ∧
    st_bugs (r_stats resp) + st_failures (r_stats resp) + st_errors (r_stats resp)
      + st_cli (r_stats resp) = 3.
Proof.
  assert (Hstart : range_start example_now (default "day" (Some "day"))
                   = Some (mk_datetime 2024 1 1 9 30 0 0 None)) by by vm_compute.
  destruct (unique_sessions_counts_distinct_ids IsoFormat.iso_parse example_store
              example_now (Some "day") _ Hstart)
    as (resp & Hresp & Hsize & Hle & Hzero).
  split; [exact Hstart|]. exists resp. split; [exact Hresp|].
  vm_compute in Hresp. injection Hresp as <-. by vm_compute.
Defined.

Lemma time_series_witness :
  range_start example_now (default "day" (Some "day"))
  = Some (mk_datetime 2024 1 1 9 30 0 0 None) ∧
  ∃ resp,
    get_errors IsoFormat.iso_parse example_store example_now (Some "day") = Some resp ∧
    build_time_series IsoFormat.iso_parse
      (flatten_errors (bugs_query example_store "2024-01-01T09:30:00Z")
                      (failures_query example_store "2024-01-01T09:30:00Z")
                      (pair_errors_query example_store "2024-01-01T09:30:00Z")
                      (cli_failures_query example_store "2024-01-01T09:30:00Z"))
      "day" 0 (Some (session_stats_query example_store "2024-01-01T09:30:00Z"))
    = Some (r_timeSeries resp).
Proof.
  assert (Hstart : range_start example_now (default "day" (Some "day"))
                   = Some (mk_datetime 2024 1 1 9 30 0 0 None)) by by vm_compute.
  destruct (time_series_ignores_sort IsoFormat.iso_parse example_store
              example_now (Some "day") _ 0 Hstart)
    as (resp & Hresp & Hseries).
  split; [exact Hstart|]. exists resp. split; [exact Hresp|]. exact Hseries.
Defined.

Lemma query_window_witness :
  valid_datetime example_now = true ∧ 2 <= year example_now ∧
  "week" ∈ ["hour"; "day"; "week"; "month"] ∧
  ∃ start,
    range_start example_now "week" = Some start ∧
    valid_datetime start = true ∧
    utcoffset start = utcoffset example_now ∧
    instant example_now - instant start = window_of "week".
Proof.
  assert (H1 : valid_datetime example_now = true) by reflexivity.
  assert (H2 : 2 <= year example_now) by (simpl; lia).
  assert (H3 : "week" ∈ ["hour"; "day"; "week"; "month"])
    by (apply (bool_decide_unpack _); by vm_compute).
  split; [exact H1|]. split; [exact H2|]. split; [exact H3|].
  exact (query_window_exact example_now "week" H1 H2 H3).
Defined.

Lemma empty_store_witness :
  range_start example_now (default "day" None)
  = Some (mk_datetime 2024 1 1 9 30 0 0 None) ∧
  get_errors IsoFormat.iso_parse empty_store example_now None
  = Some (mk_response (mk_stats 0 0 0 0 0) [] [] (mk_session_types 0 0 0) ∅).
Proof.
  assert (Hstart : range_start example_now (default "day" None)
                   = Some (mk_datetime 2024 1 1 9 30 0 0 None)) by by vm_compute.
  split; [exact Hstart|].
  by apply (empty_store_renders_zero IsoFormat.iso_parse empty_store example_now None
              _ Hstart).
Defined.

Lemma session_lookup_witness :
  get_session upstream_down "grokCoder" "A" = Some (not_found, 404) ∧
  get_session upstream_one_session "grokCoder" "A"
  = Some (JObj [("id", JStr "A")], 200).
Proof.
  split.
  - apply (proj1 (session_lookup_answers upstream_down "grokCoder" "A")). exact I.
  - by apply (proj2 (session_lookup_answers upstream_one_session "grokCoder" "A")
                200 [("status", JStr "success");
                     ("results", JArr [JObj [("id", JStr "A")]])]
                (JObj [("id", JStr "A")]) []).
Defined.

Lemma rollbacks_undo_witness :
  (2 ≤ length fake_user_inputs)%nat ∧
  rollbacks 2 (apply_changes fake_user_inputs (original_document, []))
  = apply_changes (take 3 fake_user_inputs) (original_document, []) ∧
  rollbacks 5 (apply_changes fake_user_inputs (original_document, []))
  = (original_document, []).
Proof.
  assert (H : (2 ≤ length fake_user_inputs)%nat) by (simpl; lia).
  split; [exact H|].
  exact (rollbacks_undo_latest_changes fake_user_inputs 2 original_document [] H).
Defined.

Lemma test_script_witness :
  (length fake_user_inputs ≤ 5)%nat ∧
  run_test plain_digest original_document fake_user_inputs 5 = true.
Proof.
  assert (H : (length fake_user_inputs ≤ 5)%nat) by (simpl; lia).
  split; [exact H|].
  exact (proj1 (test_script_succeeds plain_digest original_document
                  fake_user_inputs 5 H)).
Defined.

Lemma is_prime_witness :
  (2 ≤ 97 → ∃ bound, exact_isqrt 97 = Some bound ∧ Z.sqrt 97 ≤ bound < 97) ∧
  is_prime exact_isqrt 97 = Some true ∧ Z.prime 97.
Proof.
  assert (H : 2 ≤ 97 → ∃ bound, exact_isqrt 97 = Some bound ∧ Z.sqrt 97 ≤ bound < 97)
    by (intros _; exists 9; by vm_compute).
  destruct (is_prime_decides_primality exact_isqrt 97 H) as (answer & Hanswer & Hiff).
  assert (Htrue : answer = true) by (vm_compute in Hanswer; congruence).
  split; [exact H|]. split.
  - by rewrite Hanswer, Htrue.
  - by apply Hiff.
Defined.
